(** * biblioteca-backend: routes, AlunoController, Usuario

    A shallow embedding of [src/routes.ts], of the two versions of
    [controller/AlunoController.ts] and of [model/Usuario.ts], together with
    the properties of the authentication gate and of the result-code to
    HTTP-response convention.

    Asynchronous code is embedded as a state-and-exception monad over the
    state outside the process (database, console): an [await] is a bind, a
    rejected promise is a thrown exception, [try]/[catch] is [try_catch]. *)

From Stdlib Require Import ZArith.
From stdpp Require Import base option list strings gmap.

Set Warnings "-register-all".

Local Open Scope Z_scope.
Local Open Scope string_scope.

(** ** JavaScript values *)

(** The values a parsed request can carry.  Objects and arrays are kept by
    their serialisation: the controllers only test them for truthiness and
    pass them on. *)
Inductive JSValue : Type :=
  | JSUndefined
  | JSNull
  | JSBool (b : bool)
  | JSNumber (n : Z)
  | JSString (s : string)
  | JSDate (iso : string)
  | JSObject (repr : string).

(** The result of [parseInt]: an integer or [NaN]. *)
Inductive Number : Type :=
  | NaN
  | Int (z : Z).

(** [!v] is [negb (truthy v)]. *)
Definition truthy (v : JSValue) : bool :=
  match v with
  | JSUndefined | JSNull => false
  | JSBool b => b
  | JSNumber n => negb (Z.eqb n 0)
  | JSString s => negb (String.eqb s "")
  | JSDate _ | JSObject _ => true
  end.

(** [v ?? d] *)
Definition nullish (v d : JSValue) : JSValue :=
  match v with
  | JSUndefined | JSNull => d
  | _ => v
  end.

(** A JavaScript object read by property name: a missing property reads
    as [undefined]. *)
Definition prop (o : gmap string JSValue) (k : string) : JSValue :=
  default JSUndefined (o !! k).

(** JSON documents, as written by [res.json]. *)
Inductive Json : Type :=
  | JNull
  | JBool (b : bool)
  | JNum (n : Z)
  | JStr (s : string)
  | JArr (items : list Json)
  | JObj (fields : list (string * Json)).

(** ** Exceptions, console and the effect monad *)

Record Error : Type := { name : string; message : string }.

(** [Error.prototype.toString], which a template literal applies. *)
Definition Error_toString (e : Error) : string :=
  if String.eqb (name e) "" then message e
  else if String.eqb (message e) "" then name e
  else name e ++ ": " ++ message e.

Inductive ConsoleEntry : Type :=
  | LogStr (s : string)
  | LogObj (e : Error)
  | ErrStr (s : string).

Record St (W : Type) : Type := mkSt { world : W; console : list ConsoleEntry }.
Arguments mkSt {W} _ _.
Arguments world {W} _.
Arguments console {W} _.

Inductive Result (A : Type) : Type :=
  | Ok (a : A)
  | Thrown (e : Error).
Arguments Ok {A} _.
Arguments Thrown {A} _.

Definition Eff (W A : Type) : Type := St W → Result A * St W.

Definition eff_ret {W A} (a : A) : Eff W A := λ st, (Ok a, st).

Definition eff_bind {W A B} (m : Eff W A) (k : A → Eff W B) : Eff W B :=
  λ st, match m st with
        | (Ok a, st') => k a st'
        | (Thrown e, st') => (Thrown e, st')
        end.

Definition throw {W A} (e : Error) : Eff W A := λ st, (Thrown e, st).

Definition try_catch {W A} (m : Eff W A) (handler : Error → Eff W A) : Eff W A :=
  λ st, match m st with
        | (Ok a, st') => (Ok a, st')
        | (Thrown e, st') => handler e st'
        end.

Definition emit {W} (entry : ConsoleEntry) : Eff W unit :=
  λ st, (Ok tt, mkSt (world st) (console st ++ [entry])).

Definition console_log {W} (s : string) : Eff W unit := emit (LogStr s).
Definition console_log_obj {W} (e : Error) : Eff W unit := emit (LogObj e).
Definition console_error {W} (s : string) : Eff W unit := emit (ErrStr s).

Declare Scope eff_scope.
Delimit Scope eff_scope with eff.
Notation "'let!' x ':=' m 'in' k" := (eff_bind m (λ x, k))
  (at level 10, x name, m at level 100, k at level 200) : eff_scope.
Notation "m ';;;' k" := (eff_bind m (λ _, k))
  (at level 100, k at level 200, right associativity) : eff_scope.

(** ** Express requests and responses *)

Inductive Body : Type :=
  | JsonBody (j : Json)
  | TextBody (s : string).

(** The response object: status 200 until [status] is called, nothing sent
    until [json] or [send] is. *)
Record Response : Type := mkResponse { statusCode : Z; sent : option Body }.

Definition res0 : Response := mkResponse 200 None.

Definition status (code : Z) (res : Response) : Response :=
  mkResponse code (sent res).
Definition json (j : Json) (res : Response) : Response :=
  mkResponse (statusCode res) (Some (JsonBody j)).
Definition send (s : string) (res : Response) : Response :=
  mkResponse (statusCode res) (Some (TextBody s)).

(** [{ mensagem: m }] *)
Definition mensagem_obj (m : string) : Json := JObj [("mensagem", JStr m)].

(** The request object: [body] and [query] are the objects the parsers
    leave, [subject] is what the gate attaches. *)
Record Request : Type := mkRequest {
  headers : gmap string string;
  query : gmap string JSValue;
  body : gmap string JSValue;
  subject : option string
}.

(** ** The Aluno model, as the controllers use it

    [model/Aluno.ts] is not among the files embedded here: the class, its
    constructor, its setter, its serialisation and its four static database
    operations are the members of this interface; a result code is an
    integer.  [parseInt] is the ECMAScript builtin; its result is a
    floating-point number, so it is left open as well. *)
Class AlunoModel (W : Type) : Type := {
  Aluno : Type;
  new_Aluno : JSValue → JSValue → JSValue → JSValue → JSValue → JSValue → Aluno;
  setIdAluno : Number → Aluno → Aluno;
  Aluno_toJSON : Aluno → Json;
  listarAlunos : Eff W (list Aluno);
  cadastrarAluno : Aluno → Eff W Z;
  removerAluno : Number → Eff W Z;
  atualizarAluno : Aluno → Eff W Z;
  parseInt : JSValue → Number
}.

(** The [{ status, mensagem }] entries of a response table. *)
Record Resposta : Type := mkResposta { resposta_status : Z; resposta_mensagem : string }.

(** [a ?? b] on table lookups: [None] is [undefined]. *)
Definition coalesce {A} (a b : option A) : option A :=
  match a with
  | Some x => Some x
  | None => b
  end.

(** Reading a property of [undefined] throws. *)
Definition TypeError_undefined : Error :=
  {| name := "TypeError"; message := "Cannot read properties of undefined" |}.

(** ** AlunoController, first version (the documented one) *)
Module AlunoController.
Section Controller.
Context {W : Type} {M : AlunoModel W}.
Local Open Scope eff_scope.

Definition todos (req : Request) (res : Response) : Eff W Response :=
  try_catch
    (let! listaDeAlunos := listarAlunos in
     eff_ret (json (JArr (Aluno_toJSON <$> listaDeAlunos)) (status 200 res)))
    (λ error,
       console_log ("Erro ao acessar método herdado: " ++ Error_toString error) ;;;
       eff_ret (json (mensagem_obj "Erro ao recuperar as informações do aluno. Entre em contato com o administrador do sistema para mais detalhes.") (status 500 res))).

Definition mensagens : gmap Z Resposta :=
  {[ 0 := mkResposta 400 "Erro ao cadastrar aluno. Entre em contato com o administrador do sistema para mais detalhes.";
     1 := mkResposta 201 "Aluno cadastrado com sucesso!";
     9 := mkResposta 406 "Parâmetros obrigatórios não informados." ]}.

Definition cadastrar (req : Request) (res : Response) : Eff W Response :=
  try_catch
    (let dadosRecebidos := body req in
     if negb (truthy (prop dadosRecebidos "nome"))
        || negb (truthy (prop dadosRecebidos "sobrenome"))
        || negb (truthy (prop dadosRecebidos "email"))
        || negb (truthy (prop dadosRecebidos "celular"))
     then
       console_log "Parâmetros obrigatórios não informados" ;;;
       eff_ret (json (mensagem_obj "Parâmetros obrigatórios não informados.") (status 406 res))
     else
       let novoAluno :=
         new_Aluno
           (prop dadosRecebidos "nome")
           (prop dadosRecebidos "sobrenome")
           (nullish (prop dadosRecebidos "dataNascimento") (JSDate "1900-01-01"))
           (nullish (prop dadosRecebidos "endereco") (JSString ""))
           (nullish (prop dadosRecebidos "email") (JSString ""))
           (prop dadosRecebidos "celular") in
       let! result := cadastrarAluno novoAluno in
       match coalesce (mensagens !! result) (mensagens !! 0) with
       | Some resposta =>
           eff_ret (json (mensagem_obj (resposta_mensagem resposta))
                         (status (resposta_status resposta) res))
       | None => throw TypeError_undefined
       end)
    (λ error,
       console_log ("Erro ao cadastrar o aluno: " ++ Error_toString error) ;;;
       eff_ret (json (mensagem_obj "Erro ao cadastrar o aluno. Entre em contato com o administrador do sistema para mais detalhes.") (status 500 res))).

Definition remover (req : Request) (res : Response) : Eff W Response :=
  try_catch
    (let idAluno := parseInt (prop (query req) "idAluno") in
     let! result := removerAluno idAluno in
     match result with
     | 0 => eff_ret (json (JStr "Erro ao deletar aluno. Entre em contato com o administrador do sistema para mais detalhes.") (status 400 res))
     | 1 => eff_ret (json (JStr "Aluno removido com sucesso.") (status 200 res))
     | 9 => eff_ret (json (JStr "Aluno não encontrado.") (status 400 res))
     | _ => eff_ret (json (JStr "Erro ao deletar aluno. Entre em contato com o administrador do sistema para mais detalhes.") (status 400 res))
     end)
    (λ error,
       console_log ("Erro ao remover aluno: " ++ Error_toString error) ;;;
       eff_ret (send "Erro ao remover aluno. Entre em contato com o administrador do sistema para mais detalhes." (status 500 res))).

Definition atualizar (req : Request) (res : Response) : Eff W Response :=
  try_catch
    (let dadosRecebidos := body req in
     let aluno :=
       new_Aluno
         (prop dadosRecebidos "nome")
         (prop dadosRecebidos "sobrenome")
         (nullish (prop dadosRecebidos "dataNascimento") (JSDate "1900-01-01"))
         (nullish (prop dadosRecebidos "endereco") (JSString ""))
         (prop dadosRecebidos "email")
         (prop dadosRecebidos "celular") in
     let aluno := setIdAluno (parseInt (prop (query req) "idAluno")) aluno in
     let! result := atualizarAluno aluno in
     eff_ret (json (mensagem_obj (if Z.eqb result 1 then "Aluno atualizado com sucesso!"
                                  else "Erro ao atualizar aluno."))
                   (status (if Z.eqb result 1 then 200 else 400) res)))
    (λ error,
       console_error ("Erro ao atualizar aluno: " ++ Error_toString error) ;;;
       eff_ret (json (mensagem_obj "Erro ao atualizar aluno. Entre em contato com o administrador do sistema para mais detalhes.") (status 500 res))).
End Controller.
End AlunoController.

(** ** AlunoController, second version *)
Module AlunoController2.
Section Controller.
Context {W : Type} {M : AlunoModel W}.
Local Open Scope eff_scope.

Definition todos (req : Request) (res : Response) : Eff W Response :=
  try_catch
    (let! listaDeAlunos := listarAlunos in
     eff_ret (json (JArr (Aluno_toJSON <$> listaDeAlunos)) (status 200 res)))
    (λ error,
       console_log ("Erro ao acessar método herdado: " ++ Error_toString error) ;;;
       eff_ret (json (mensagem_obj "Erro ao recuperar as informações do aluno. Entre em contato com o administrador do sistema para mais detalhes.") (status 400 res))).

Definition mensagens : gmap Z Resposta :=
  {[ 0 := mkResposta 400 "Erro ao cadastrar aluno. Entre em contato com o administrador do sistema para mais detalhes.";
     1 := mkResposta 201 "Aluno cadastrado com sucesso!";
     9 := mkResposta 406 "Parâmetros obrigatórios não informados." ]}.

Definition cadastrar (req : Request) (res : Response) : Eff W Response :=
  try_catch
    (let dadosRecebidos := body req in
     if negb (truthy (prop dadosRecebidos "nome"))
        || negb (truthy (prop dadosRecebidos "sobrenome"))
        || negb (truthy (prop dadosRecebidos "email"))
        || negb (truthy (prop dadosRecebidos "celular"))
     then
       console_log "Parâmetros obrigatórios não informados" ;;;
       eff_ret (json (mensagem_obj "Parâmetros obrigatórios não informados.") (status 406 res))
     else
       let novoAluno :=
         new_Aluno
           (prop dadosRecebidos "nome")
           (prop dadosRecebidos "sobrenome")
           (nullish (prop dadosRecebidos "dataNascimento") (JSDate "1900-01-01"))
           (nullish (prop dadosRecebidos "endereco") (JSString ""))
           (nullish (prop dadosRecebidos "email") (JSString ""))
           (prop dadosRecebidos "celular") in
       let! result := cadastrarAluno novoAluno in
       match coalesce (mensagens !! result) (mensagens !! 0) with
       | Some resposta =>
           eff_ret (json (mensagem_obj (resposta_mensagem resposta))
                         (status (resposta_status resposta) res))
       | None => throw TypeError_undefined
       end)
    (λ error,
       console_log ("Erro ao cadastrar o aluno: " ++ Error_toString error) ;;;
       eff_ret (json (mensagem_obj "Erro ao cadastrar o aluno. Entre em contato com o administrador do sistema para mais detalhes.") (status 400 res))).

Definition remover (req : Request) (res : Response) : Eff W Response :=
  try_catch
    (let idAluno := parseInt (prop (query req) "idAluno") in
     let! result := removerAluno idAluno in
     match result with
     | 0 => eff_ret (json (JStr "Erro ao deletar aluno. Entre em contato com o administrador do sistema para mais detalhes.") (status 400 res))
     | 1 => eff_ret (json (JStr "Aluno removido com sucesso.") (status 200 res))
     | 9 => eff_ret (json (JStr "Aluno não encontrado.") (status 400 res))
     | _ => eff_ret (json (JStr "Erro ao deletar aluno. Entre em contato com o administrador do sistema para mais detalhes.") (status 400 res))
     end)
    (λ error,
       console_log "Erro ao remover o Aluno" ;;;
       console_log_obj error ;;;
       eff_ret (send "error" (status 500 res))).

Definition atualizar (req : Request) (res : Response) : Eff W Response :=
  try_catch
    (let dadosRecebidos := body req in
     let aluno :=
       new_Aluno
         (prop dadosRecebidos "nome")
         (prop dadosRecebidos "sobrenome")
         (nullish (prop dadosRecebidos "dataNascimento") (JSDate "1900-01-01"))
         (nullish (prop dadosRecebidos "endereco") (JSString ""))
         (prop dadosRecebidos "email")
         (prop dadosRecebidos "celular") in
     let aluno := setIdAluno (parseInt (prop (query req) "idAluno")) aluno in
     let! result := atualizarAluno aluno in
     match result with
     | 0 => eff_ret (json (mensagem_obj "Erro ao atualizar aluno. Entre em contato com o administrador do sistema para mais detalhes.") (status 400 res))
     | 1 => eff_ret (json (mensagem_obj "Aluno atualizado com sucesso!") (status 201 res))
     | 9 => eff_ret (json (mensagem_obj "Aluno não encontrado.") (status 406 res))
     | _ => eff_ret (json (mensagem_obj "Erro ao atualizar aluno. Entre em contato com o administrador do sistema para mais detalhes.") (status 400 res))
     end)
    (λ error,
       console_error ("Erro no modelo: " ++ Error_toString error) ;;;
       eff_ret (json (mensagem_obj "Erro ao atualizar aluno.") res)).
End Controller.
End AlunoController2.

(** ** Usuario *)

(** A row of [SELECT * FROM usuario], as the driver hands it over. *)
Module Row.
Record t : Type := mk {
  id_usuario : Z;
  uuid : string;
  nome : string;
  username : string;
  email : string;
  senha : string
  }.
End Row.

(** [DataBaseModel] is not among the files embedded here: the connection
  pool is its [query] method, which may reject. *)
Record QueryResult : Type := mkQueryResult { rows : list Row.t }.

Class DataBaseModel (W : Type) : Type := {
  pool_query : string → Eff W QueryResult
}.

Module Usuario.
Record t : Type := mk {
  idUsuario : Z;
  uuidUsuario : string;
  nome : string;
  username : string;
  email : string;
  senha : string
  }.

(** The constructor, with the field initialisers [idUsuario = 0],
    [uuidUsuario = ''] and [senha = '']. *)
Definition new (_nome _username _email : string) : t :=
  mk 0 "" _nome _username _email "".

Definition getIdUsuario (u : t) : Z := idUsuario u.
Definition setIdUsuario (v : Z) (u : t) : t :=
  mk v (uuidUsuario u) (nome u) (username u) (email u) (senha u).
Definition getUuidUsuario (u : t) : string := uuidUsuario u.
Definition setUuidUsuario (v : string) (u : t) : t :=
  mk (idUsuario u) v (nome u) (username u) (email u) (senha u).
Definition getNome (u : t) : string := nome u.
Definition setNome (v : string) (u : t) : t :=
  mk (idUsuario u) (uuidUsuario u) v (username u) (email u) (senha u).
Definition getUsername (u : t) : string := username u.
Definition setUsername (v : string) (u : t) : t :=
  mk (idUsuario u) (uuidUsuario u) (nome u) v (email u) (senha u).
Definition getEmail (u : t) : string := email u.
Definition setEmail (v : string) (u : t) : t :=
  mk (idUsuario u) (uuidUsuario u) (nome u) (username u) v (senha u).
Definition getSenha (u : t) : string := senha u.
Definition setSenha (v : string) (u : t) : t :=
  mk (idUsuario u) (uuidUsuario u) (nome u) (username u) (email u) v.

(** The body of the [forEach] callback followed by the [push]. *)
Definition push_row (listaDeUsuarios : list t) (usuario : Row.t) : list t :=
  let novoUsuario :=
    new (Row.nome usuario) (Row.username usuario) (Row.email usuario) in
  let novoUsuario := setIdUsuario (Row.id_usuario usuario) novoUsuario in
  let novoUsuario := setUuidUsuario (Row.uuid usuario) novoUsuario in
  listaDeUsuarios ++ [novoUsuario].

Section Static.
Context {W : Type} {D : DataBaseModel W}.
Local Open Scope eff_scope.

(** [None] is the [null] of the [catch] branch. *)
Definition listarUsuarios : Eff W (option (list t)) :=
    let listaDeUsuarios : list t := [] in
    try_catch
      (let querySelectUsuarios := "SELECT * FROM usuario" in
       let! respostaBD := pool_query querySelectUsuarios in
       let listaDeUsuarios := fold_left push_row (rows respostaBD) listaDeUsuarios in
       eff_ret (Some listaDeUsuarios))
      (λ error,
         console_log ("Erro ao recuperar usuários. " ++ Error_toString error) ;;;
         eff_ret None).
End Static.
End Usuario.

(** ** Token Codec *)

(** Modelled from the spec: the reasons of an [Unauthorized] outcome of
    the missing [util/Auth.ts]: four of the gateway, three of the codec. *)
Inductive Reason : Type :=
  | no_such_user
  | bad_credential
  | no_token
  | invalid_token
  | malformed
  | signature_mismatch
  | expired.

(** Modelled from the spec: the [AuthorizationOutcome] of the missing
    [util/Auth.ts]; [A] is what an authorized outcome carries (a subject,
    or the issued token at login). *)
Inductive AuthorizationOutcome (A : Type) : Type :=
  | Authorized (a : A)
  | Unauthorized (reason : Reason).
Arguments Authorized {A} _.
Arguments Unauthorized {A} _.

Module TokenCodec.

(** Modelled from the spec: the claims a token of the missing codec
    carries: the subject and the issuance time. *)
Record Claims : Type := mkClaims { sub : string; iat : Z }.

(** Modelled from the spec: [util/Auth.ts] and the signing library it calls
    are missing.  A token is the opaque string seen through its decoding:
    either it does not decode, or it carries claims and a signature. *)
Inductive AuthToken : Type :=
  | Garbled (raw : string)
  | Signed (claims : Claims) (signature : string).

(** Modelled from the spec: the signing primitive and the expiry policy of
    the missing codec.  [expiry] is [None] when no expiry is configured,
    otherwise the lifetime of a token. *)
Class Codec : Type := {
  sign : string → Claims → string;
  expiry : option N
}.

Section Codec.
Context {C : Codec}.

(** Modelled from the spec: [issue(subject, secret)], the missing token
    creation: deterministic signing of the subject plus issuance time under
    the secret.  [now] is the clock at issuance. *)
Definition issue (subject : string) (secret : string) (now : Z) : AuthToken :=
  let claims := mkClaims subject now in
  Signed claims (sign secret claims).

(** Modelled from the spec: the recency check of the missing [verify],
    made only if an expiry is configured. *)
Definition recent (issued now : Z) : bool :=
  match expiry with
  | None => true
  | Some lifetime => Z.leb (now - issued) (Z.of_N lifetime)
  end.

(** Modelled from the spec: [verify(token, secret)], the missing token
    verification: recomputes the signature, validates it, checks recency;
    a distinct reason for a malformed token, a signature mismatch and an
    expiry. *)
Definition verify (token : AuthToken) (secret : string) (now : Z)
  : AuthorizationOutcome string :=
  match token with
  | Garbled _ => Unauthorized malformed
  | Signed claims signature =>
      if negb (String.eqb (sign secret claims) signature) then
        Unauthorized signature_mismatch
      else if negb (recent (iat claims) now) then
        Unauthorized expired
      else Authorized (sub claims)
  end.
End Codec.
End TokenCodec.

(** ** Auth Gateway *)
Module Auth.
Import TokenCodec.

(** Modelled from the spec: the user table of the credential store, which
    the missing [util/Auth.ts] reads: identifier, public unique id, display
    name, username, email and password credential. *)
Record UserRecord : Type := mkUser {
  identifier : Z;
  unique_id : string;
  display_name : string;
  user_name : string;
  user_email : string;
  credential : string
}.

(** Modelled from the spec: what the missing gateway is configured with:
    the credential store behind [findUserByUsername], the clock, the fixed
    secret, the designated token header with the string form of a token,
    and the generic user-facing messages. *)
Class Gateway (W : Type) : Type := {
  findUserByUsername : string → Eff W (option UserRecord);
  clock : W → Z;
  SECRET : string;
  TOKEN_HEADER : string;
  decode : string → AuthToken;
  encode : AuthToken → string;
  MENSAGEM_NAO_AUTORIZADO : string;
  MENSAGEM_REQUISICAO_INVALIDA : string;
  MENSAGEM_ERRO_INTERNO : string
}.

(** What a handler of a route stack does: it ends the request with a
    response, or calls [next()]. *)
Inductive HandlerResult : Type :=
  | Done (res : Response)
  | Next (req : Request) (res : Response).

Section Gateway.
Context {W : Type} {C : Codec} {G : Gateway W}.
Local Open Scope eff_scope.

(** Modelled from the spec: reading the clock, for the issuance time and
    the recency check of the missing gateway. *)
Definition now : Eff W Z := λ st, (Ok (clock (world st)), st).

(** Modelled from the spec: the login state machine of the missing
    [Auth.validacaoUsuario]: look the username up; not found is
    [no_such_user]; a password that differs from the stored credential is
    [bad_credential]; a match issues a token for the subject. *)
Definition login (username password : string)
  : Eff W (AuthorizationOutcome AuthToken) :=
  let! found := findUserByUsername username in
  match found with
  | None => eff_ret (Unauthorized no_such_user)
  | Some user =>
      if negb (String.eqb password (credential user)) then
        eff_ret (Unauthorized bad_credential)
      else
        let! t := now in
        eff_ret (Authorized (issue (user_name user) SECRET t))
  end.

(** Modelled from the spec: the HTTP face of the missing
    [Auth.validacaoUsuario]: body [{username, password}]; [{token}] on
    success; a [{mensagem}] body with 401 on an auth failure, 400 on a body
    without the two strings, 500 when the store is unavailable. *)
Definition validacaoUsuario (req : Request) (res : Response) : Eff W Response :=
  try_catch
    (match prop (body req) "username", prop (body req) "password" with
     | JSString username, JSString password =>
         let! outcome := login username password in
         match outcome with
         | Authorized token =>
             eff_ret (json (JObj [("token", JStr (encode token))]) (status 200 res))
         | Unauthorized _ =>
             eff_ret (json (mensagem_obj MENSAGEM_NAO_AUTORIZADO) (status 401 res))
         end
     | _, _ =>
         eff_ret (json (mensagem_obj MENSAGEM_REQUISICAO_INVALIDA) (status 400 res))
     end)
    (λ error,
       eff_ret (json (mensagem_obj MENSAGEM_ERRO_INTERNO) (status 500 res))).

(** Modelled from the spec: the authorization check of the missing
    [Auth.verifyToken]: a missing token is [no_token]; a token the codec
    rejects is [invalid_token]; a valid one authorizes its subject. *)
Definition authorize (req : Request) (t : Z) : AuthorizationOutcome string :=
  match headers req !! TOKEN_HEADER with
  | None => Unauthorized no_token
  | Some raw =>
      match verify (decode raw) SECRET t with
      | Authorized s => Authorized s
      | Unauthorized _ => Unauthorized invalid_token
      end
  end.

(** Modelled from the spec: the missing middleware [Auth.verifyToken]: a
    failure ends the request with 401 and the generic message; a success
    forwards the request with the subject attached. *)
Definition verifyToken (req : Request) (res : Response) : Eff W HandlerResult :=
  let! t := now in
  match authorize req t with
  | Authorized s =>
      eff_ret (Next (mkRequest (headers req) (query req) (body req) (Some s)) res)
  | Unauthorized _ =>
      eff_ret (Done (json (mensagem_obj MENSAGEM_NAO_AUTORIZADO) (status 401 res)))
  end.
End Gateway.
End Auth.

(** ** The router *)
Module Routes.
Import Auth.

Inductive Method : Type := GET | POST | PUT.

(** The keys of [SERVER_ROUTES] the router uses.  [appConfig] is not among
    the files embedded here; distinct keys stand for distinct paths. *)
Inductive SERVER_ROUTES : Type :=
  | LOGIN
  | LISTAR_ALUNOS | NOVO_ALUNO | REMOVER_ALUNO | ATUALIZAR_ALUNO
  | LISTAR_LIVROS | NOVO_LIVRO | REMOVER_LIVRO | ATUALIZAR_LIVRO
  | LISTAR_EMPRESTIMOS | NOVO_EMPRESTIMO | ATUALIZAR_EMPRESTIMO | REMOVER_EMPRESTIMO.

Inductive Path : Type :=
  | Literal (p : string)
  | Config (key : SERVER_ROUTES).

Inductive HandlerName : Type :=
  | Root
  | Auth_validacaoUsuario
  | Auth_verifyToken
  | AlunoController_todos | AlunoController_cadastrar
  | AlunoController_remover | AlunoController_atualizar
  | LivroController_todos | LivroController_cadastrar
  | LivroController_remover | LivroController_atualizar
  | EmprestimoController_todos | EmprestimoController_cadastrar
  | EmprestimoController_atualizar | EmprestimoController_remover.

#[global] Instance Method_eq_dec : EqDecision Method.
Proof. solve_decision. Defined.
#[global] Instance SERVER_ROUTES_eq_dec : EqDecision SERVER_ROUTES.
Proof. solve_decision. Defined.
#[global] Instance Path_eq_dec : EqDecision Path.
Proof. solve_decision. Defined.
#[global] Instance HandlerName_eq_dec : EqDecision HandlerName.
Proof. solve_decision. Defined.

Record Route : Type := mkRoute {
  method : Method;
  path : Path;
  stack : list HandlerName
}.

(** The registrations of [routes.ts], in order. *)
Definition router : list Route := [
  mkRoute GET (Literal "/") [Root];
  mkRoute POST (Config LOGIN) [Auth_validacaoUsuario];
  mkRoute GET (Config LISTAR_ALUNOS) [Auth_verifyToken; AlunoController_todos];
  mkRoute POST (Config NOVO_ALUNO) [Auth_verifyToken; AlunoController_cadastrar];
  mkRoute PUT (Config REMOVER_ALUNO) [Auth_verifyToken; AlunoController_remover];
  mkRoute PUT (Config ATUALIZAR_ALUNO) [Auth_verifyToken; AlunoController_atualizar];
  mkRoute GET (Config LISTAR_LIVROS) [Auth_verifyToken; LivroController_todos];
  mkRoute POST (Config NOVO_LIVRO) [Auth_verifyToken; LivroController_cadastrar];
  mkRoute PUT (Config REMOVER_LIVRO) [Auth_verifyToken; LivroController_remover];
  mkRoute PUT (Config ATUALIZAR_LIVRO) [Auth_verifyToken; LivroController_atualizar];
  mkRoute GET (Config LISTAR_EMPRESTIMOS) [Auth_verifyToken; EmprestimoController_todos];
  mkRoute POST (Config NOVO_EMPRESTIMO) [Auth_verifyToken; EmprestimoController_cadastrar];
  mkRoute PUT (Config ATUALIZAR_EMPRESTIMO) [Auth_verifyToken; EmprestimoController_atualizar];
  mkRoute PUT (Config REMOVER_EMPRESTIMO) [Auth_verifyToken; EmprestimoController_remover]
].

(** Which of the two versions of [AlunoController] the router imports. *)
Inductive Version : Type := V1 | V2.

(** [LivroController] and [EmprestimoController] are not among the files
    embedded here: any handlers that answer the request. *)
Class EntityControllers (W : Type) : Type := {
  Livro_todos : Request → Response → Eff W Response;
  Livro_cadastrar : Request → Response → Eff W Response;
  Livro_remover : Request → Response → Eff W Response;
  Livro_atualizar : Request → Response → Eff W Response;
  Emprestimo_todos : Request → Response → Eff W Response;
  Emprestimo_cadastrar : Request → Response → Eff W Response;
  Emprestimo_atualizar : Request → Response → Eff W Response;
  Emprestimo_remover : Request → Response → Eff W Response
}.

Section Dispatch.
Context {W : Type} {C : TokenCodec.Codec} {G : Gateway W} {M : AlunoModel W}
        {E : EntityControllers W}.
Local Open Scope eff_scope.

(** A controller always ends the request. *)
Definition controller (c : Request → Response → Eff W Response)
  : Request → Response → Eff W HandlerResult :=
  λ req res, let! r := c req res in eff_ret (Done r).

Definition handler (v : Version) (h : HandlerName)
  : Request → Response → Eff W HandlerResult :=
  match h with
  | Root => λ req res, eff_ret (Done (json (mensagem_obj "Rota padrão") res))
  | Auth_validacaoUsuario => controller validacaoUsuario
  | Auth_verifyToken => verifyToken
  | AlunoController_todos =>
      controller (match v with V1 => AlunoController.todos | V2 => AlunoController2.todos end)
  | AlunoController_cadastrar =>
      controller (match v with V1 => AlunoController.cadastrar | V2 => AlunoController2.cadastrar end)
  | AlunoController_remover =>
      controller (match v with V1 => AlunoController.remover | V2 => AlunoController2.remover end)
  | AlunoController_atualizar =>
      controller (match v with V1 => AlunoController.atualizar | V2 => AlunoController2.atualizar end)
  | LivroController_todos => controller Livro_todos
  | LivroController_cadastrar => controller Livro_cadastrar
  | LivroController_remover => controller Livro_remover
  | LivroController_atualizar => controller Livro_atualizar
  | EmprestimoController_todos => controller Emprestimo_todos
  | EmprestimoController_cadastrar => controller Emprestimo_cadastrar
  | EmprestimoController_atualizar => controller Emprestimo_atualizar
  | EmprestimoController_remover => controller Emprestimo_remover
  end.

(** Running the handlers of a stack in order, as Express does: each one
    ends the request or calls [next()].  The first component is the list of
    the handlers invoked; [None] is a request no handler answered. *)
Fixpoint run_stack (v : Version) (hs : list HandlerName) (req : Request)
  (res : Response) (st : St W)
  : list HandlerName * (Result (option Response) * St W) :=
  match hs with
  | [] => ([], (Ok None, st))
  | h :: rest =>
      match handler v h req res st with
      | (Ok (Done res'), st') => ([h], (Ok (Some res'), st'))
      | (Ok (Next req' res'), st') =>
          let '(invoked, out) := run_stack v rest req' res' st' in
          (h :: invoked, out)
      | (Thrown e, st') => ([h], (Thrown e, st'))
      end
  end.

(** The request goes through the stacks of the routes registered for its
    method and path, in registration order. *)
Definition dispatch (v : Version) (m : Method) (p : Path) (req : Request)
  (st : St W) : list HandlerName * (Result (option Response) * St W) :=
  run_stack v
    (concat (stack <$> filter (λ r, method r = m ∧ path r = p) router))
    req res0 st.

(** How often a handler was invoked. *)
Definition invocations (h : HandlerName) (invoked : list HandlerName) : nat :=
  length (filter (λ x, x = h) invoked).
End Dispatch.

(** The routes behind the authentication gate: all but the default route
    and the login. *)
Definition protected (r : Route) : bool :=
  match path r with
  | Literal _ | Config LOGIN => false
  | Config _ => true
  end.

(** The handler that ends a stack. *)
Definition target (r : Route) : option HandlerName := last (stack r).
End Routes.

(** ** Vocabulary of the statements *)

Definition is_2xx (code : Z) : Prop := 200 ≤ code < 300.
Definition is_4xx (code : Z) : Prop := 400 ≤ code < 500.
Definition is_5xx (code : Z) : Prop := 500 ≤ code < 600.

(** The shapes of a response body. *)
Definition is_envelope (b : option Body) : bool :=
  match b with
  | Some (JsonBody (JObj [(key, JStr _)])) => String.eqb key "mensagem"
  | _ => false
  end.

Definition is_array (b : option Body) : bool :=
  match b with
  | Some (JsonBody (JArr _)) => true
  | _ => false
  end.

Definition is_bare_string (b : option Body) : bool :=
  match b with
  | Some (JsonBody (JStr _)) => true
  | _ => false
  end.

Definition is_text (b : option Body) : bool :=
  match b with
  | Some (TextBody _) => true
  | _ => false
  end.

(** The human-readable message a body carries, enveloped or bare. *)
Definition message_of (b : option Body) : option string :=
  match b with
  | Some (JsonBody (JObj [(_, JStr m)])) => Some m
  | Some (JsonBody (JStr m)) => Some m
  | Some (TextBody m) => Some m
  | _ => None
  end.

(** The response a run ended with, if it did not throw. *)
Definition answered {W} (out : Result Response * St W) : option Response :=
  match out.1 with
  | Ok r => Some r
  | Thrown _ => None
  end.

(** The three known result codes of the model. *)
Definition known_code (c : Z) : Prop := c = 0 ∨ c = 1 ∨ c = 9.

(** The operations of a controller that answer with a message. *)
Inductive Operation : Type := Create | Update | Remove.

Section Operations.
Context {W : Type} {M : AlunoModel W}.

(** The guard of [cadastrar] on the four required fields. *)
Definition obrigatorios_informados (req : Request) : bool :=
  truthy (prop (body req) "nome") && truthy (prop (body req) "sobrenome")
  && truthy (prop (body req) "email") && truthy (prop (body req) "celular").

(** The object [cadastrar] hands to the model. *)
Definition novoAluno_de (req : Request) : Aluno :=
  new_Aluno
    (prop (body req) "nome")
    (prop (body req) "sobrenome")
    (nullish (prop (body req) "dataNascimento") (JSDate "1900-01-01"))
    (nullish (prop (body req) "endereco") (JSString ""))
    (nullish (prop (body req) "email") (JSString ""))
    (prop (body req) "celular").

(** The object [atualizar] hands to the model. *)
Definition aluno_atualizado_de (req : Request) : Aluno :=
  setIdAluno (parseInt (prop (query req) "idAluno"))
    (new_Aluno
       (prop (body req) "nome")
       (prop (body req) "sobrenome")
       (nullish (prop (body req) "dataNascimento") (JSDate "1900-01-01"))
       (nullish (prop (body req) "endereco") (JSString ""))
       (prop (body req) "email")
       (prop (body req) "celular")).

(** The call an operation makes to the model. *)
Definition domain_call (op : Operation) (req : Request) : Eff W Z :=
  match op with
  | Create => cadastrarAluno (novoAluno_de req)
  | Update => atualizarAluno (aluno_atualizado_de req)
  | Remove => removerAluno (parseInt (prop (query req) "idAluno"))
  end.

(** Whether the operation gets as far as the model. *)
Definition reaches_model (op : Operation) (req : Request) : bool :=
  match op with
  | Create => obrigatorios_informados req
  | Update | Remove => true
  end.

Definition operation (v : Routes.Version) (op : Operation)
  : Request → Response → Eff W Response :=
  match v, op with
  | Routes.V1, Create => AlunoController.cadastrar
  | Routes.V1, Update => AlunoController.atualizar
  | Routes.V1, Remove => AlunoController.remover
  | Routes.V2, Create => AlunoController2.cadastrar
  | Routes.V2, Update => AlunoController2.atualizar
  | Routes.V2, Remove => AlunoController2.remover
  end.

Definition todos (v : Routes.Version) : Request → Response → Eff W Response :=
  match v with
  | Routes.V1 => AlunoController.todos
  | Routes.V2 => AlunoController2.todos
  end.
End Operations.

(** The reading of the envelope convention under test: whatever a create,
    update or remove operation answers is [{mensagem}]-shaped. *)
Definition envelope_everywhere : Prop :=
  ∀ (W : Type) (M : AlunoModel W) v op req st resp st',
    operation v op req res0 st = (Ok resp, st') →
    is_envelope (sent resp) = true.

(** A row with its password column blanked. *)
Definition redact (r : Row.t) : Row.t :=
  Row.mk (Row.id_usuario r) (Row.uuid r) (Row.nome r) (Row.username r)
         (Row.email r) "".

(** A call to one of the six setters of [Usuario], and a sequence of such
    calls on one object, first call first. *)
Inductive UsuarioSetter : Type :=
  | SetIdUsuario (v : Z)
  | SetUuidUsuario (v : string)
  | SetNome (v : string)
  | SetUsername (v : string)
  | SetEmail (v : string)
  | SetSenha (v : string).

Definition call_setter (u : Usuario.t) (s : UsuarioSetter) : Usuario.t :=
  match s with
  | SetIdUsuario v => Usuario.setIdUsuario v u
  | SetUuidUsuario v => Usuario.setUuidUsuario v u
  | SetNome v => Usuario.setNome v u
  | SetUsername v => Usuario.setUsername v u
  | SetEmail v => Usuario.setEmail v u
  | SetSenha v => Usuario.setSenha v u
  end.

Definition call_setters (u : Usuario.t) (calls : list UsuarioSetter) : Usuario.t :=
  fold_left call_setter calls u.

Definition is_SetSenha (s : UsuarioSetter) : bool :=
  match s with
  | SetSenha _ => true
  | _ => false
  end.



(** ** A small in-memory world, for running the code *)
Module Scenario.
Import TokenCodec Auth Routes.

Record World : Type := mkWorld {
  users : gmap string UserRecord;
  usuario_rows : option (list Row.t);
  alunos : option (list string);
  result : option Z;
  time : Z
}.

Definition unavailable : Error :=
  {| name := "Error"; message := "connect ECONNREFUSED" |}.

Definition answer {A} (f : World → option A) : Eff World A :=
  λ st, match f (world st) with
        | Some a => (Ok a, st)
        | None => (Thrown unavailable, st)
        end.

#[export] Instance model : AlunoModel World := {|
  Aluno := string;
  new_Aluno := λ nome _ _ _ _ _,
    match nome with JSString s => s | _ => "" end;
  setIdAluno := λ _ a, a;
  Aluno_toJSON := JStr;
  listarAlunos := answer alunos;
  cadastrarAluno := λ _, answer result;
  removerAluno := λ _, answer result;
  atualizarAluno := λ _, answer result;
  parseInt := λ v, match v with JSNumber n => Int n | _ => NaN end
|}.

#[export] Instance database : DataBaseModel World := {|
  pool_query := λ _, answer (λ w, mkQueryResult <$> usuario_rows w)
|}.

#[export] Instance codec : Codec := {|
  sign := λ secret claims, secret ++ "/" ++ sub claims;
  expiry := Some 3600%N
|}.

#[export] Instance gateway : Gateway World := {|
  findUserByUsername := λ u st, (Ok (users (world st) !! u), st);
  clock := time;
  SECRET := "segredo";
  TOKEN_HEADER := "x-access-token";
  decode := λ raw,
    if String.eqb raw "token-ana" then issue "ana" "segredo" 100
    else Garbled raw;
  encode := λ token,
    match token with
    | Garbled raw => raw
    | Signed claims _ => "token-" ++ sub claims
    end;
  MENSAGEM_NAO_AUTORIZADO := "Não autorizado.";
  MENSAGEM_REQUISICAO_INVALIDA := "Requisição inválida.";
  MENSAGEM_ERRO_INTERNO := "Erro interno."
|}.

#[export] Instance others : EntityControllers World := {|
  Livro_todos := λ _ res, eff_ret (json (JArr []) (status 200 res));
  Livro_cadastrar := λ _ res, eff_ret (json (mensagem_obj "ok") (status 201 res));
  Livro_remover := λ _ res, eff_ret (json (mensagem_obj "ok") (status 200 res));
  Livro_atualizar := λ _ res, eff_ret (json (mensagem_obj "ok") (status 200 res));
  Emprestimo_todos := λ _ res, eff_ret (json (JArr []) (status 200 res));
  Emprestimo_cadastrar := λ _ res, eff_ret (json (mensagem_obj "ok") (status 201 res));
  Emprestimo_atualizar := λ _ res, eff_ret (json (mensagem_obj "ok") (status 200 res));
  Emprestimo_remover := λ _ res, eff_ret (json (mensagem_obj "ok") (status 200 res))
|}.

Definition ana : UserRecord :=
  mkUser 1 "7c9e6679" "Ana" "ana" "ana@escola.br" "correct".

Definition row_ana (senha : string) : Row.t :=
  Row.mk 1 "7c9e6679" "Ana" "ana" "ana@escola.br" senha.

(** The store is up, the model answers [code]. *)
Definition up (code : Z) : St World :=
  mkSt (mkWorld {[ "ana" := ana ]} (Some [row_ana "correct"])
                (Some ["Ana"]) (Some code) 160) [].

(** The store is down: every call to the model rejects. *)
Definition down : St World :=
  mkSt (mkWorld ∅ None None None 160) [].

Definition anonymous : Request := mkRequest ∅ ∅ ∅ None.

Definition with_token : Request :=
  mkRequest {[ "x-access-token" := "token-ana" ]} ∅ ∅ None.

Definition novo_aluno : Request :=
  mkRequest ∅ ∅
    {[ "nome" := JSString "Ana"; "sobrenome" := JSString "Lima";
       "email" := JSString "ana@escola.br"; "celular" := JSString "16999990000" ]}
    None.

Definition login_de (username password : string) : Request :=
  mkRequest ∅ ∅
    {[ "username" := JSString username; "password" := JSString password ]} None.
End Scenario.

(** * Properties *)

(** ** Running the code *)

Example cadastrar_sem_campos :
  answered (AlunoController.cadastrar (M := Scenario.model)
              Scenario.anonymous res0 (Scenario.up 1))
  = Some (mkResponse 406
            (Some (JsonBody (mensagem_obj "Parâmetros obrigatórios não informados.")))).
Proof. reflexivity. Qed.

Example cadastrar_sucesso :
  answered (AlunoController.cadastrar (M := Scenario.model)
              Scenario.novo_aluno res0 (Scenario.up 1))
  = Some (mkResponse 201 (Some (JsonBody (mensagem_obj "Aluno cadastrado com sucesso!")))).
Proof. reflexivity. Qed.

Example remover_nao_encontrado :
  answered (AlunoController.remover (M := Scenario.model)
              Scenario.anonymous res0 (Scenario.up 9))
  = Some (mkResponse 400 (Some (JsonBody (JStr "Aluno não encontrado.")))).
Proof. reflexivity. Qed.

Example atualizar_nao_encontrado_v1 :
  answered (AlunoController.atualizar (M := Scenario.model)
              Scenario.novo_aluno res0 (Scenario.up 9))
  = Some (mkResponse 400 (Some (JsonBody (mensagem_obj "Erro ao atualizar aluno.")))).
Proof. reflexivity. Qed.

Example atualizar_nao_encontrado_v2 :
  answered (AlunoController2.atualizar (M := Scenario.model)
              Scenario.novo_aluno res0 (Scenario.up 9))
  = Some (mkResponse 406 (Some (JsonBody (mensagem_obj "Aluno não encontrado.")))).
Proof. reflexivity. Qed.

Example todos_store_down_logs :
  AlunoController.todos (M := Scenario.model) Scenario.anonymous res0 Scenario.down
  = (Ok (mkResponse 500
           (Some (JsonBody (mensagem_obj "Erro ao recuperar as informações do aluno. Entre em contato com o administrador do sistema para mais detalhes.")))),
     mkSt (world Scenario.down)
          [LogStr "Erro ao acessar método herdado: Error: connect ECONNREFUSED"]).
Proof. reflexivity. Qed.

Example listarUsuarios_ana :
  (Usuario.listarUsuarios (D := Scenario.database) (Scenario.up 1)).1
  = Ok (Some [Usuario.mk 1 "7c9e6679" "Ana" "ana" "ana@escola.br" ""]).
Proof. reflexivity. Qed.

Example listarUsuarios_store_down :
  (Usuario.listarUsuarios (D := Scenario.database) Scenario.down).1 = Ok None.
Proof. reflexivity. Qed.

Example rota_padrao :
  Routes.dispatch (C := Scenario.codec) (G := Scenario.gateway)
    (M := Scenario.model) (E := Scenario.others)
    Routes.V1 Routes.GET (Routes.Literal "/") Scenario.anonymous (Scenario.up 1)
  = ([Routes.Root],
     (Ok (Some (mkResponse 200 (Some (JsonBody (mensagem_obj "Rota padrão"))))),
      Scenario.up 1)).
Proof. reflexivity. Qed.

Example login_ana_correct :
  answered (Auth.validacaoUsuario (C := Scenario.codec) (G := Scenario.gateway)
              (Scenario.login_de "ana" "correct") res0 (Scenario.up 1))
  = Some (mkResponse 200 (Some (JsonBody (JObj [("token", JStr "token-ana")])))).
Proof. reflexivity. Qed.

Example verify_expired :
  TokenCodec.verify (C := Scenario.codec)
    (TokenCodec.issue (C := Scenario.codec) "ana" "segredo" 100) "segredo" 3701
  = Unauthorized expired.
Proof. reflexivity. Qed.

Example verify_other_secret :
  TokenCodec.verify (C := Scenario.codec)
    (TokenCodec.issue (C := Scenario.codec) "ana" "segredo" 100) "outro" 160
  = Unauthorized signature_mismatch.
Proof. reflexivity. Qed.

(** ** The response tables *)

Lemma mensagens_unknown (c : Z) :
  ¬ known_code c → AlunoController.mensagens !! c = None.
Proof.
  intros Hc. unfold AlunoController.mensagens, known_code in *.
  rewrite !lookup_insert_ne by lia.
  apply lookup_singleton_ne. lia.
Qed.

Lemma mensagens2_same : AlunoController2.mensagens = AlunoController.mensagens.
Proof. reflexivity. Qed.

Lemma mensagens_coalesce (c : Z) :
  ∃ r, coalesce (AlunoController.mensagens !! c) (AlunoController.mensagens !! 0) = Some r
       ∧ (c = 1 → r = mkResposta 201 "Aluno cadastrado com sucesso!")
       ∧ (c = 9 → r = mkResposta 406 "Parâmetros obrigatórios não informados.")
       ∧ (c ≠ 1 → c ≠ 9 → r = mkResposta 400 "Erro ao cadastrar aluno. Entre em contato com o administrador do sistema para mais detalhes.").
Proof.
  destruct (decide (c = 0)) as [->|H0]; [|destruct (decide (c = 1)) as [->|H1];
    [|destruct (decide (c = 9)) as [->|H9]]].
  - eexists; split; [reflexivity|]. repeat split; intros; congruence.
  - eexists; split; [reflexivity|]. repeat split; intros; congruence.
  - eexists; split; [reflexivity|]. repeat split; intros; congruence.
  - rewrite mensagens_unknown by (unfold known_code; tauto).
    eexists; split; [reflexivity|]. repeat split; intros; congruence.
Qed.

(** The guard of [cadastrar], as the source writes it. *)
Lemma guard_obrigatorios (req : Request) :
  negb (truthy (prop (body req) "nome"))
  || negb (truthy (prop (body req) "sobrenome"))
  || negb (truthy (prop (body req) "email"))
  || negb (truthy (prop (body req) "celular"))
  = negb (obrigatorios_informados req).
Proof.
  unfold obrigatorios_informados.
  destruct (truthy (prop (body req) "nome")),
           (truthy (prop (body req) "sobrenome")),
           (truthy (prop (body req) "email")),
           (truthy (prop (body req) "celular")); reflexivity.
Qed.

Ltac eff_unfold :=
  unfold try_catch, eff_bind, eff_ret, throw, console_log, console_log_obj,
         console_error, emit in *.

Section ControllerFacts.
Context {W : Type} {M : AlunoModel W}.

(** What [cadastrar] answers once the model has returned [c]. *)
Lemma cadastrar_returns (req : Request) (res : Response) (st st' : St W) (c : Z) :
  obrigatorios_informados req = true →
  cadastrarAluno (novoAluno_de req) st = (Ok c, st') →
  ∃ r, coalesce (AlunoController.mensagens !! c) (AlunoController.mensagens !! 0) = Some r ∧
       AlunoController.cadastrar req res st
       = (Ok (json (mensagem_obj (resposta_mensagem r)) (status (resposta_status r) res)), st').
Proof.
  intros Hg Hc. destruct (mensagens_coalesce c) as (r & Hr & _).
  exists r. split; [exact Hr|].
  unfold AlunoController.cadastrar. eff_unfold.
  rewrite guard_obrigatorios, Hg. simpl.
  unfold novoAluno_de in Hc. rewrite Hc, Hr. reflexivity.
Qed.

Lemma cadastrar2_returns (req : Request) (res : Response) (st st' : St W) (c : Z) :
  obrigatorios_informados req = true →
  cadastrarAluno (novoAluno_de req) st = (Ok c, st') →
  ∃ r, coalesce (AlunoController.mensagens !! c) (AlunoController.mensagens !! 0) = Some r ∧
       AlunoController2.cadastrar req res st
       = (Ok (json (mensagem_obj (resposta_mensagem r)) (status (resposta_status r) res)), st').
Proof.
  intros Hg Hc. destruct (mensagens_coalesce c) as (r & Hr & _).
  exists r. split; [exact Hr|].
  unfold AlunoController2.cadastrar. eff_unfold.
  rewrite guard_obrigatorios, Hg. simpl.
  unfold novoAluno_de in Hc. rewrite Hc, mensagens2_same, Hr. reflexivity.
Qed.

(** Both versions reject a request without the required fields alike. *)
Lemma cadastrar_rejects (req : Request) (res : Response) (st : St W) :
  obrigatorios_informados req = false →
  AlunoController.cadastrar req res st = AlunoController2.cadastrar req res st.
Proof.
  intros Hg. unfold AlunoController.cadastrar, AlunoController2.cadastrar.
  eff_unfold. rewrite guard_obrigatorios, Hg. reflexivity.
Qed.
End ControllerFacts.

(** Runs an operation whose call to the model is known. *)
Ltac run_operation Hreach Hcall :=
  unfold operation, AlunoController.cadastrar, AlunoController.atualizar,
         AlunoController.remover, AlunoController2.cadastrar,
         AlunoController2.atualizar, AlunoController2.remover;
  eff_unfold;
  unfold domain_call, novoAluno_de, aluno_atualizado_de, reaches_model in *;
  try rewrite guard_obrigatorios, Hreach;
  simpl; rewrite Hcall; simpl.

(** Splits a [switch] on a result code into its cases. *)
Ltac switch_cases :=
  repeat match goal with
         | |- context [match ?x with _ => _ end] => is_var x; destruct x
         end.

(** Checks a candidate table against the code of an operation. *)
Ltac check_table :=
  unfold is_2xx, is_4xx; simpl; repeat split; try lia;
  [ intros c [-> | [-> | ->]]; discriminate
  | intros req res st st' c Hk Hr Hd;
    destruct Hk as [-> | [-> | ->]]; run_operation Hr Hd;
    eexists; repeat split; reflexivity ].

(** ** Result codes at the HTTP boundary *)

(** C5.  For each of create, update and remove, in either version of the
    controller, there is a fixed table from result codes to a status and a
    non-empty message: success (1) is 2xx, failure (0) and not-found or
    invalid input (9) are 4xx, and whenever the model returns one of the
    three codes the response carries the status and the message the table
    gives for it. *)
Theorem result_code_mapping {W : Type} {M : AlunoModel W}
    (v : Routes.Version) (op : Operation) :
  ∃ tabela : Z → Z * string,
    is_2xx (tabela 1).1 ∧ is_4xx (tabela 0).1 ∧ is_4xx (tabela 9).1 ∧
    (∀ c, known_code c → (tabela c).2 ≠ "") ∧
    ∀ (req : Request) (res : Response) (st st' : St W) (c : Z),
      known_code c →
      reaches_model op req = true →
      domain_call op req st = (Ok c, st') →
      ∃ resp, operation v op req res st = (Ok resp, st')
              ∧ statusCode resp = (tabela c).1
              ∧ message_of (sent resp) = Some (tabela c).2.
Proof.
  destruct v, op.
  - exists (λ c, if Z.eqb c 1 then (201, "Aluno cadastrado com sucesso!")
                 else if Z.eqb c 9 then (406, "Parâmetros obrigatórios não informados.")
                 else (400, "Erro ao cadastrar aluno. Entre em contato com o administrador do sistema para mais detalhes.")).
    check_table.
  - exists (λ c, if Z.eqb c 1 then (200, "Aluno atualizado com sucesso!")
                 else (400, "Erro ao atualizar aluno.")).
    check_table.
  - exists (λ c, if Z.eqb c 1 then (200, "Aluno removido com sucesso.")
                 else if Z.eqb c 9 then (400, "Aluno não encontrado.")
                 else (400, "Erro ao deletar aluno. Entre em contato com o administrador do sistema para mais detalhes.")).
    check_table.
  - exists (λ c, if Z.eqb c 1 then (201, "Aluno cadastrado com sucesso!")
                 else if Z.eqb c 9 then (406, "Parâmetros obrigatórios não informados.")
                 else (400, "Erro ao cadastrar aluno. Entre em contato com o administrador do sistema para mais detalhes.")).
    check_table.
  - exists (λ c, if Z.eqb c 1 then (201, "Aluno atualizado com sucesso!")
                 else if Z.eqb c 9 then (406, "Aluno não encontrado.")
                 else (400, "Erro ao atualizar aluno. Entre em contato com o administrador do sistema para mais detalhes.")).
    check_table.
  - exists (λ c, if Z.eqb c 1 then (200, "Aluno removido com sucesso.")
                 else if Z.eqb c 9 then (400, "Aluno não encontrado.")
                 else (400, "Erro ao deletar aluno. Entre em contato com o administrador do sistema para mais detalhes.")).
    check_table.
Qed.

Lemma result_code_mapping_witness :
  ∃ tabela : Z → Z * string,
    is_2xx (tabela 1).1 ∧
    ∃ resp,
      operation (M := Scenario.model) Routes.V1 Create Scenario.novo_aluno res0
        (Scenario.up 1) = (Ok resp, Scenario.up 1)
      ∧ statusCode resp = (tabela 1).1
      ∧ message_of (sent resp) = Some (tabela 1).2.
Proof.
  destruct (result_code_mapping (M := Scenario.model) Routes.V1 Create)
    as (tabela & H2xx & _ & _ & _ & Hrun).
  exists tabela. split; [exact H2xx|].
  apply Hrun.
  - right; left; reflexivity.
  - reflexivity.
  - reflexivity.
Defined.

(** C8.  A result code outside {0, 1, 9} is answered exactly as code 0 is:
    the same response, with status 400 and, for [cadastrar], the generic
    failure message; this holds for [cadastrar], [remover] and [atualizar]
    in either version, and every result code gets a response. *)
Theorem unknown_code_as_failure {W : Type} {M : AlunoModel W}
    (v : Routes.Version) (op : Operation) (req : Request) (res : Response)
    (c : Z) (st st' st0 st0' : St W) :
  ¬ known_code c →
  reaches_model op req = true →
  domain_call op req st = (Ok c, st') →
  domain_call op req st0 = (Ok 0, st0') →
  (∃ resp,
     operation v op req res st = (Ok resp, st')
     ∧ operation v op req res st0 = (Ok resp, st0')
     ∧ statusCode resp = 400
     ∧ (op = Create →
        sent resp = Some (JsonBody (mensagem_obj "Erro ao cadastrar aluno. Entre em contato com o administrador do sistema para mais detalhes.")))
     ∧ (op = Remove →
        sent resp = Some (JsonBody (JStr "Erro ao deletar aluno. Entre em contato com o administrador do sistema para mais detalhes."))))
  ∧ (∀ (k : Z) (st1 st1' : St W),
       domain_call op req st1 = (Ok k, st1') →
       ∃ resp, operation v op req res st1 = (Ok resp, st1')).
Proof.
  intros Hc Hr Hd Hd0. split.
  - assert (Hne : c ≠ 0 ∧ c ≠ 1 ∧ c ≠ 9) by (unfold known_code in Hc; lia).
    destruct Hne as (H0 & H1 & H9).
    destruct v, op.
    + destruct (cadastrar_returns req res st st' c Hr Hd) as (r & Hlk & Hrun).
      destruct (cadastrar_returns req res st0 st0' 0 Hr Hd0) as (r0 & Hlk0 & Hrun0).
      rewrite (mensagens_unknown c Hc) in Hlk. simpl in Hlk.
      rewrite Hlk in Hlk0. injection Hlk0 as <-. injection Hlk as <-.
      simpl. rewrite Hrun, Hrun0.
      eexists; repeat split; try reflexivity; discriminate.
    + run_operation Hr Hd0. run_operation Hr Hd.
      destruct (Z.eqb_neq c 1) as [_ ->]; [|exact H1].
      eexists; repeat split; try reflexivity; discriminate.
    + run_operation Hr Hd0. run_operation Hr Hd. switch_cases; try congruence;
        eexists; repeat split; try reflexivity; discriminate.
    + destruct (cadastrar2_returns req res st st' c Hr Hd) as (r & Hlk & Hrun).
      destruct (cadastrar2_returns req res st0 st0' 0 Hr Hd0) as (r0 & Hlk0 & Hrun0).
      rewrite (mensagens_unknown c Hc) in Hlk. simpl in Hlk.
      rewrite Hlk in Hlk0. injection Hlk0 as <-. injection Hlk as <-.
      simpl. rewrite Hrun, Hrun0.
      eexists; repeat split; try reflexivity; discriminate.
    + run_operation Hr Hd0. run_operation Hr Hd. switch_cases; try congruence;
        eexists; repeat split; try reflexivity; discriminate.
    + run_operation Hr Hd0. run_operation Hr Hd. switch_cases; try congruence;
        eexists; repeat split; try reflexivity; discriminate.
  - intros k st1 st1' Hk. destruct v, op.
    + destruct (cadastrar_returns req res st1 st1' k Hr Hk) as (r & _ & Hrun).
      simpl. rewrite Hrun. eauto.
    + run_operation Hr Hk. eauto.
    + run_operation Hr Hk. switch_cases; eauto.
    + destruct (cadastrar2_returns req res st1 st1' k Hr Hk) as (r & _ & Hrun).
      simpl. rewrite Hrun. eauto.
    + run_operation Hr Hk. switch_cases; eauto.
    + run_operation Hr Hk. switch_cases; eauto.
Qed.

Lemma unknown_code_as_failure_witness :
  ∃ resp,
    operation (M := Scenario.model) Routes.V1 Create Scenario.novo_aluno res0
      (Scenario.up 5) = (Ok resp, Scenario.up 5)
    ∧ operation (M := Scenario.model) Routes.V1 Create Scenario.novo_aluno res0
        (Scenario.up 0) = (Ok resp, Scenario.up 0)
    ∧ statusCode resp = 400.
Proof.
  destruct (unknown_code_as_failure (M := Scenario.model) Routes.V1 Create
              Scenario.novo_aluno res0 5
              (Scenario.up 5) (Scenario.up 5) (Scenario.up 0) (Scenario.up 0))
    as ((resp & H5 & H0 & Hs & _) & _).
  - unfold known_code; lia.
  - reflexivity.
  - reflexivity.
  - reflexivity.
  - exists resp. auto.
Defined.

(** ** The two versions of [cadastrar] *)

(** C9.  Whenever the call to [Aluno.cadastrarAluno] returns a result code
    instead of throwing, the two versions of [AlunoController.cadastrar]
    give the same response (status and body) and leave the same state, for
    every request and every result code. *)
Theorem cadastrar_versions_agree {W : Type} {M : AlunoModel W}
    (req : Request) (res : Response) (st : St W) :
  (∃ c st', cadastrarAluno (novoAluno_de req) st = (Ok c, st')) →
  AlunoController.cadastrar req res st = AlunoController2.cadastrar req res st.
Proof.
  intros (c & st' & Hc).
  destruct (obrigatorios_informados req) eqn:Hg.
  - destruct (cadastrar_returns req res st st' c Hg Hc) as (r & Hr & ->).
    destruct (cadastrar2_returns req res st st' c Hg Hc) as (r' & Hr' & ->).
    congruence.
  - apply cadastrar_rejects, Hg.
Qed.

Lemma cadastrar_versions_agree_witness :
  AlunoController.cadastrar (M := Scenario.model) Scenario.novo_aluno res0
    (Scenario.up 9)
  = AlunoController2.cadastrar (M := Scenario.model) Scenario.novo_aluno res0
      (Scenario.up 9).
Proof.
  apply (cadastrar_versions_agree (M := Scenario.model)).
  exists 9, (Scenario.up 9). reflexivity.
Defined.

(** Without that precondition the versions differ: 500 against 400. *)
Example cadastrar_versions_differ_on_failure :
  statusCode <$> answered (AlunoController.cadastrar (M := Scenario.model)
                             Scenario.novo_aluno res0 Scenario.down)
  ≠ statusCode <$> answered (AlunoController2.cadastrar (M := Scenario.model)
                               Scenario.novo_aluno res0 Scenario.down).
Proof. vm_compute. discriminate. Qed.

(** ** When the store fails *)

Section StoreFailure.
Context {W : Type} {M : AlunoModel W}.

(** The first version answers 500 whenever the call to the model throws,
    in all four operations. *)
Lemma store_failure_first_version (req : Request) (res : Response) (st : St W) :
  (∀ e st', listarAlunos st = (Thrown e, st') →
     statusCode <$> answered (AlunoController.todos req res st) = Some 500)
  ∧ (∀ op e st', reaches_model op req = true →
       domain_call op req st = (Thrown e, st') →
       statusCode <$> answered (operation Routes.V1 op req res st) = Some 500).
Proof.
  split.
  - intros e st' He. unfold AlunoController.todos. eff_unfold.
    rewrite He. reflexivity.
  - intros op e st' Hr He. destruct op; run_operation Hr He; reflexivity.
Qed.

(** In the second version [remover] does too. *)
Lemma store_failure_remover2 (req : Request) (res : Response) (st : St W) e st' :
  removerAluno (parseInt (prop (query req) "idAluno")) st = (Thrown e, st') →
  statusCode <$> answered (AlunoController2.remover req res st) = Some 500.
Proof.
  intros He. unfold AlunoController2.remover. eff_unfold.
  rewrite He. reflexivity.
Qed.
End StoreFailure.

(** C6 (on the failing inputs).  In the second version of the controller a
    throwing call to the model is answered with 400 by [todos] and by
    [cadastrar], and by [atualizar] with the status the response object
    already has, 200 on a fresh one: none of them a 500-class status. *)
Theorem store_failure_second_version {W : Type} {M : AlunoModel W}
    (req : Request) (st : St W) :
  (∀ e st', listarAlunos st = (Thrown e, st') →
     statusCode <$> answered (AlunoController2.todos req res0 st) = Some 400)
  ∧ (∀ e st', obrigatorios_informados req = true →
       cadastrarAluno (novoAluno_de req) st = (Thrown e, st') →
       statusCode <$> answered (AlunoController2.cadastrar req res0 st) = Some 400)
  ∧ (∀ e st', atualizarAluno (aluno_atualizado_de req) st = (Thrown e, st') →
       answered (AlunoController2.atualizar req res0 st)
       = Some (mkResponse 200 (Some (JsonBody (mensagem_obj "Erro ao atualizar aluno."))))
       ∧ ¬ is_5xx 200).
Proof.
  repeat split.
  - intros e st' He. unfold AlunoController2.todos. eff_unfold.
    rewrite He. reflexivity.
  - intros e st' Hr He.
    change (cadastrarAluno (novoAluno_de req)) with (domain_call Create req) in He.
    change (obrigatorios_informados req) with (reaches_model Create req) in Hr.
    change AlunoController2.cadastrar with (operation Routes.V2 Create).
    run_operation Hr He. reflexivity.
  - change (atualizarAluno (aluno_atualizado_de req)) with (domain_call Update req) in H.
    change AlunoController2.atualizar with (operation Routes.V2 Update).
    assert (Hr : reaches_model Update req = true) by reflexivity.
    run_operation Hr H. reflexivity.
  - unfold is_5xx. lia.
Qed.

Lemma store_failure_second_version_witness :
  answered (AlunoController2.atualizar (M := Scenario.model)
              Scenario.novo_aluno res0 Scenario.down)
  = Some (mkResponse 200 (Some (JsonBody (mensagem_obj "Erro ao atualizar aluno.")))).
Proof.
  destruct (store_failure_second_version (M := Scenario.model)
              Scenario.novo_aluno Scenario.down) as (_ & _ & H).
  apply (H Scenario.unavailable Scenario.down). reflexivity.
Defined.

(** ** The shape of the bodies *)

(** C7 (as stated, refuted).  Not every answer of a create, update or
    remove operation is [{mensagem}]-shaped: [remover] answers a successful
    removal with the bare JSON string. *)
Lemma remover_breaks_envelope : ¬ envelope_everywhere.
Proof.
  intros Hall.
  specialize (Hall Scenario.World Scenario.model Routes.V1 Remove
                Scenario.anonymous (Scenario.up 1)
                (mkResponse 200 (Some (JsonBody (JStr "Aluno removido com sucesso."))))
                (Scenario.up 1) eq_refl).
  discriminate Hall.
Qed.

(** C7 (amended).  In either version every operation answers every
    request; [cadastrar] and [atualizar] always answer with a [{mensagem}]
    envelope; [remover] never does: it answers with a bare JSON string when
    the model returns and with plain text when it throws; [todos] answers
    with a raw JSON array when the model returns and with a [{mensagem}]
    envelope when it throws. *)
Theorem envelope_by_operation {W : Type} {M : AlunoModel W}
    (v : Routes.Version) (req : Request) (res : Response) (st : St W) :
  (∃ resp st', operation v Create req res st = (Ok resp, st')
               ∧ is_envelope (sent resp) = true)
  ∧ (∃ resp st', operation v Update req res st = (Ok resp, st')
                 ∧ is_envelope (sent resp) = true)
  ∧ (∃ resp st', operation v Remove req res st = (Ok resp, st')
                 ∧ is_envelope (sent resp) = false
                 ∧ match domain_call Remove req st with
                   | (Ok _, _) => is_bare_string (sent resp) = true
                   | (Thrown _, _) => is_text (sent resp) = true
                   end)
  ∧ (∃ resp st', todos v req res st = (Ok resp, st')
                 ∧ match listarAlunos st with
                   | (Ok _, _) => is_array (sent resp) = true
                   | (Thrown _, _) => is_envelope (sent resp) = true
                   end).
Proof.
  repeat split.
  - destruct (obrigatorios_informados req) eqn:Hg.
    + destruct (domain_call Create req st) as [[c|e] st1] eqn:Hd.
      * destruct (mensagens_coalesce c) as (r & Hr & _).
        destruct v; simpl.
        -- destruct (cadastrar_returns req res st st1 c Hg Hd) as (r' & _ & ->).
           eauto.
        -- destruct (cadastrar2_returns req res st st1 c Hg Hd) as (r' & _ & ->).
           eauto.
      * assert (Hr : reaches_model Create req = true) by exact Hg.
        destruct v; run_operation Hr Hd; eauto.
    + destruct v; unfold operation, AlunoController.cadastrar,
        AlunoController2.cadastrar; eff_unfold;
        rewrite guard_obrigatorios, Hg; simpl; eauto.
  - assert (Hr : reaches_model Update req = true) by reflexivity.
    destruct (domain_call Update req st) as [[c|e] st1] eqn:Hd;
      destruct v; run_operation Hr Hd; try switch_cases; eauto.
  - assert (Hr : reaches_model Remove req = true) by reflexivity.
    destruct (domain_call Remove req st) as [[c|e] st1] eqn:Hd;
      destruct v; run_operation Hr Hd; try switch_cases; eauto.
  - destruct v; unfold todos, AlunoController.todos, AlunoController2.todos;
      eff_unfold; destruct (listarAlunos st) as [[l|e] st1]; simpl; eauto.
Qed.

(** ** Usuario.listarUsuarios and the password column *)

Lemma push_row_redact (acc : list Usuario.t) (r : Row.t) :
  Usuario.push_row acc (redact r) = Usuario.push_row acc r.
Proof. reflexivity. Qed.

Lemma fold_push_row_senha (rows : list Row.t) (acc : list Usuario.t) :
  Forall (λ u, Usuario.getSenha u = "") acc →
  Forall (λ u, Usuario.getSenha u = "") (fold_left Usuario.push_row rows acc).
Proof.
  revert acc. induction rows as [|r rows IH]; intros acc Hacc; simpl.
  - exact Hacc.
  - apply IH. unfold Usuario.push_row.
    apply Forall_app. split; [exact Hacc|].
    constructor; [reflexivity|constructor].
Qed.

Lemma fold_push_row_length (rows : list Row.t) (acc : list Usuario.t) :
  length (fold_left Usuario.push_row rows acc) = (length acc + length rows)%nat.
Proof.
  revert acc. induction rows as [|r rows IH]; intros acc; simpl.
  - lia.
  - rewrite IH. unfold Usuario.push_row. rewrite length_app. simpl. lia.
Qed.

Lemma fold_push_row_redact (rows1 rows2 : list Row.t) (acc : list Usuario.t) :
  redact <$> rows1 = redact <$> rows2 →
  fold_left Usuario.push_row rows1 acc = fold_left Usuario.push_row rows2 acc.
Proof.
  revert rows2 acc.
  induction rows1 as [|r1 rows1 IH]; intros [|r2 rows2] acc Heq;
    try discriminate; [reflexivity|].
  rewrite !fmap_cons in Heq.
  pose proof (f_equal (hd (redact r1)) Heq) as Hr.
  pose proof (f_equal (@tail _) Heq) as Hrows.
  change (redact r1 = redact r2) in Hr.
  change (redact <$> rows1 = redact <$> rows2) in Hrows.
  simpl. rewrite <- (push_row_redact acc r1), Hr, push_row_redact.
  apply IH, Hrows.
Qed.

(** C10.  Every [Usuario] in a list that [listarUsuarios] returns has the
    empty string as [senha]; the list has one entry per row of the database
    response; and two database responses that differ only in their [senha]
    columns give the same result. *)
Theorem listarUsuarios_hides_senha {W : Type} {D : DataBaseModel W} (st : St W) :
  (∀ lista st',
     Usuario.listarUsuarios st = (Ok (Some lista), st') →
     Forall (λ u, Usuario.getSenha u = "") lista)
  ∧ (∀ respostaBD st',
       pool_query "SELECT * FROM usuario" st = (Ok respostaBD, st') →
       ∃ lista, Usuario.listarUsuarios st = (Ok (Some lista), st')
                ∧ length lista = length (rows respostaBD))
  ∧ (∀ (st2 : St W) resposta1 resposta2 st1' st2',
       pool_query "SELECT * FROM usuario" st = (Ok resposta1, st1') →
       pool_query "SELECT * FROM usuario" st2 = (Ok resposta2, st2') →
       redact <$> rows resposta1 = redact <$> rows resposta2 →
       (Usuario.listarUsuarios st).1 = (Usuario.listarUsuarios st2).1).
Proof.
  unfold Usuario.listarUsuarios. eff_unfold. repeat split.
  - intros lista st'.
    destruct (pool_query "SELECT * FROM usuario" st) as [[respostaBD|e] st1];
      intros Heq; [|discriminate].
    injection Heq as <- _. apply fold_push_row_senha. constructor.
  - intros respostaBD st' ->. eexists. split; [reflexivity|].
    apply fold_push_row_length.
  - intros st2 resposta1 resposta2 st1' st2' -> -> Heq. simpl.
    rewrite (fold_push_row_redact _ _ [] Heq). reflexivity.
Qed.

Lemma listarUsuarios_hides_senha_witness :
  (Usuario.listarUsuarios (D := Scenario.database) (Scenario.up 1)).1
  = (Usuario.listarUsuarios (D := Scenario.database)
       (mkSt (Scenario.mkWorld ∅ (Some [Scenario.row_ana "outra"]) None None 0) [])).1.
Proof.
  destruct (listarUsuarios_hides_senha (D := Scenario.database) (Scenario.up 1))
    as (_ & _ & H).
  eapply H; reflexivity.
Defined.

(** ** Token Codec *)

Section CodecFacts.
Import TokenCodec.
Context {C : Codec}.

Lemma recent_same_instant (t : Z) : recent t t = true.
Proof.
  unfold recent. destruct expiry as [lifetime|]; [|reflexivity].
  apply Z.leb_le. lia.
Qed.

(** What an authorizing [verify] has checked. *)
Lemma verify_authorized (token : AuthToken) (secret : string) (now : Z) (s : string) :
  verify token secret now = Authorized s →
  ∃ claims signature,
    token = Signed claims signature ∧ sub claims = s
    ∧ sign secret claims = signature ∧ recent (iat claims) now = true.
Proof.
  unfold verify. destruct token as [raw|claims signature]; [discriminate|].
  destruct (String.eqb (sign secret claims) signature) eqn:Hsig; simpl;
    [|discriminate].
  destruct (recent (iat claims) now) eqn:Hrec; simpl; [|discriminate].
  intros [= <-]. exists claims, signature.
  apply String.eqb_eq in Hsig. auto.
Qed.
End CodecFacts.

(** C2.  Round trip of the codec: a token issued for a subject under a
    secret verifies under the same secret as [Authorized] of that subject,
    at the instant of issuance and at any later instant at which the token
    is still recent (always, when no expiry is configured). *)
Theorem verify_issue_roundtrip {C : TokenCodec.Codec}
    (subject secret : string) (issued now : Z) :
  TokenCodec.verify (TokenCodec.issue subject secret issued) secret issued
  = Authorized subject
  ∧ (TokenCodec.recent issued now = true →
     TokenCodec.verify (TokenCodec.issue subject secret issued) secret now
     = Authorized subject).
Proof.
  unfold TokenCodec.verify, TokenCodec.issue. simpl.
  rewrite String.eqb_refl. simpl. split.
  - rewrite recent_same_instant. reflexivity.
  - intros ->. reflexivity.
Qed.

Lemma verify_issue_roundtrip_witness :
  TokenCodec.verify (C := Scenario.codec)
    (TokenCodec.issue (C := Scenario.codec) "ana" "segredo" 100) "segredo" 160
  = Authorized "ana".
Proof.
  apply (verify_issue_roundtrip (C := Scenario.codec) "ana" "segredo" 100 160).
  reflexivity.
Defined.

(** C3.  A token that verifies yields the subject it was issued for,
    whatever the secret and the instant of the verification; and a token
    never verifies for two distinct subjects. *)
Theorem verified_subject_is_issued_subject {C : TokenCodec.Codec} :
  (∀ subject secret issued secret' now s,
     TokenCodec.verify (TokenCodec.issue subject secret issued) secret' now
     = Authorized s →
     s = subject)
  ∧ (∀ token secret1 now1 s1 secret2 now2 s2,
       TokenCodec.verify token secret1 now1 = Authorized s1 →
       TokenCodec.verify token secret2 now2 = Authorized s2 →
       s1 = s2).
Proof.
  split.
  - intros subject secret issued secret' now s Hv.
    apply verify_authorized in Hv as (claims & signature & Htok & <- & _).
    unfold TokenCodec.issue in Htok. injection Htok as <- _. reflexivity.
  - intros token secret1 now1 s1 secret2 now2 s2 H1 H2.
    apply verify_authorized in H1 as (c1 & g1 & -> & <- & _).
    apply verify_authorized in H2 as (c2 & g2 & [= <- _] & <- & _).
    reflexivity.
Qed.

Lemma verified_subject_is_issued_subject_witness :
  "ana" = "ana"
  ∧ TokenCodec.verify (C := Scenario.codec)
      (TokenCodec.issue (C := Scenario.codec) "ana" "segredo" 100) "segredo" 160
    = Authorized "ana".
Proof.
  split; [|reflexivity].
  apply (proj1 (verified_subject_is_issued_subject (C := Scenario.codec))
           "ana" "segredo" 100 "segredo" 160 "ana").
  reflexivity.
Defined.

(** ** Auth Gateway: login *)

(** C4.  The outcome of a login attempt is decided by what the credential
    store finds for the username: nothing gives [Unauthorized no_such_user];
    a record whose credential differs from the password gives
    [Unauthorized bad_credential]; either failure is answered with 401 and
    the [{mensagem}] envelope; a record whose credential is the password
    gives [Authorized] with the token issued for its username, answered
    with 200. *)
Theorem login_outcome {W : Type} {C : TokenCodec.Codec} {G : Auth.Gateway W}
    (username password : string) (req : Request) (res : Response)
    (st st' : St W) (found : option Auth.UserRecord) :
  Auth.findUserByUsername username st = (Ok found, st') →
  prop (body req) "username" = JSString username →
  prop (body req) "password" = JSString password →
  (found = None →
     Auth.login username password st = (Ok (Unauthorized no_such_user), st')
     ∧ Auth.validacaoUsuario req res st
       = (Ok (json (mensagem_obj Auth.MENSAGEM_NAO_AUTORIZADO) (status 401 res)), st'))
  ∧ (∀ user, found = Some user → password ≠ Auth.credential user →
       Auth.login username password st = (Ok (Unauthorized bad_credential), st')
       ∧ Auth.validacaoUsuario req res st
         = (Ok (json (mensagem_obj Auth.MENSAGEM_NAO_AUTORIZADO) (status 401 res)), st'))
  ∧ (∀ user, found = Some user → password = Auth.credential user →
       let token :=
         TokenCodec.issue (Auth.user_name user) Auth.SECRET (Auth.clock (world st')) in
       Auth.login username password st = (Ok (Authorized token), st')
       ∧ Auth.validacaoUsuario req res st
         = (Ok (json (JObj [("token", JStr (Auth.encode token))]) (status 200 res)), st')).
Proof.
  intros Hfind Hu Hp.
  unfold Auth.validacaoUsuario, Auth.login, Auth.now. rewrite Hu, Hp.
  eff_unfold. rewrite Hfind. split; [|split].
  - intros ->. split; reflexivity.
  - intros user -> Hne. apply String.eqb_neq in Hne. rewrite Hne.
    split; reflexivity.
  - intros user -> Heq. apply String.eqb_eq in Heq. rewrite Heq.
    split; reflexivity.
Qed.

(** The scenario of the wrong password: ["ana"] is stored with the
    password ["correct"] and logs in with ["wrong"]. *)
Lemma login_outcome_witness :
  Auth.login (C := Scenario.codec) (G := Scenario.gateway) "ana" "wrong"
    (Scenario.up 1)
  = (Ok (Unauthorized bad_credential), Scenario.up 1)
  ∧ statusCode <$> answered
      (Auth.validacaoUsuario (C := Scenario.codec) (G := Scenario.gateway)
         (Scenario.login_de "ana" "wrong") res0 (Scenario.up 1))
    = Some 401.
Proof.
  destruct (login_outcome (C := Scenario.codec) (G := Scenario.gateway)
              "ana" "wrong" (Scenario.login_de "ana" "wrong") res0
              (Scenario.up 1) (Scenario.up 1) (Some Scenario.ana))
    as (_ & Hbad & _).
  - reflexivity.
  - reflexivity.
  - reflexivity.
  - destruct (Hbad Scenario.ana eq_refl) as (Hlogin & Hhttp).
    + discriminate.
    + split; [exact Hlogin|]. rewrite Hhttp. reflexivity.
Defined.

(** ** The gate in front of the entity routes *)

Section Gate.
Import Auth Routes.
Context {W : Type} {C : TokenCodec.Codec} {G : Gateway W} {M : AlunoModel W}
        {E : EntityControllers W}.

(** A request without the token header is not authorized. *)
Lemma authorize_no_token (req : Request) (t : Z) :
  headers req !! TOKEN_HEADER = None → authorize req t = Unauthorized no_token.
Proof. intros Hh. unfold authorize. rewrite Hh. reflexivity. Qed.

(** No handler but [verifyToken] calls [next()]. *)
Lemma controllers_end (v : Version) (h : HandlerName) (req : Request)
    (res : Response) (st : St W) :
  h ≠ Auth_verifyToken →
  ∀ req' res' st', handler v h req res st ≠ (Ok (Next req' res'), st').
Proof.
  intros Hh req' res' st'.
  destruct h; try congruence; simpl; unfold controller; eff_unfold;
    try discriminate;
    try (destruct v);
    match goal with
    | |- context [match ?c req res st with _ => _ end] =>
        destruct (c req res st) as [[r|e] st1]; discriminate
    end.
Qed.

Lemma invocations_gate (ctl : HandlerName) :
  ctl ≠ Auth_verifyToken →
  invocations ctl [Auth_verifyToken] = 0%nat
  ∧ invocations ctl [Auth_verifyToken; ctl] = 1%nat.
Proof.
  intros Hc. unfold invocations. rewrite !filter_cons, !filter_nil.
  repeat case_decide; try congruence. split; reflexivity.
Qed.

(** Each registered method and path leads to the stack of its own route. *)
Lemma dispatch_route (v : Version) (req : Request) (st : St W) (r : Route) :
  r ∈ router →
  dispatch v (method r) (path r) req st = run_stack v (stack r) req res0 st.
Proof.
  intros Hr. unfold router in Hr.
  repeat (apply elem_of_cons in Hr as [-> | Hr]);
    try (by apply elem_of_nil in Hr); reflexivity.
Qed.

(** Each protected route is the gate followed by one controller. *)
Lemma protected_stack (r : Route) :
  r ∈ router → protected r = true →
  ∃ ctl, stack r = [Auth_verifyToken; ctl] ∧ ctl ≠ Auth_verifyToken.
Proof.
  intros Hr Hp. unfold router in Hr.
  repeat (apply elem_of_cons in Hr as [-> | Hr]);
    try (by apply elem_of_nil in Hr); try discriminate Hp;
    eexists; (split; [reflexivity|discriminate]).
Qed.

(** A stack made of the gate and one controller. *)
Lemma run_gate (v : Version) (ctl : HandlerName) (req : Request) (st : St W) :
  ctl ≠ Auth_verifyToken →
  match authorize req (clock (world st)) with
  | Authorized s =>
      ∃ out,
        run_stack v [Auth_verifyToken; ctl] req res0 st
        = ([Auth_verifyToken; ctl], out)
        ∧ match handler v ctl
                  (mkRequest (headers req) (query req) (body req) (Some s)) res0 st with
          | (Ok (Done r), st') => out = (Ok (Some r), st')
          | (Ok (Next _ _), _) => False
          | (Thrown e, st') => out = (Thrown e, st')
          end
  | Unauthorized _ =>
      run_stack v [Auth_verifyToken; ctl] req res0 st
      = ([Auth_verifyToken],
         (Ok (Some (mkResponse 401
                      (Some (JsonBody (mensagem_obj MENSAGEM_NAO_AUTORIZADO))))), st))
  end.
Proof.
  intros Hc. simpl. unfold verifyToken, now. eff_unfold.
  destruct (authorize req (clock (world st))) as [s|reason]; [|reflexivity].
  pose proof (controllers_end v ctl
                (mkRequest (headers req) (query req) (body req) (Some s))
                res0 st Hc) as Hend.
  destruct (handler v ctl _ res0 st) as [[[r|req' res']|e] st1].
  - eexists. split; reflexivity.
  - exfalso. eapply Hend. reflexivity.
  - eexists. split; reflexivity.
Qed.
End Gate.

(** C1.  Every route but the default route and the login is a stack of
    [Auth.verifyToken] and one controller, and on every request the
    controller is invoked once if the token verifies and never otherwise,
    in which case the answer is 401 with the [{mensagem}] envelope; a
    request without the token header is such a case.  On the route of
    [LISTAR_ALUNOS] a request whose token verifies, when the model returns
    the list, is answered with 200 and the list. *)
Theorem protected_routes_gate {W : Type} {C : TokenCodec.Codec}
    {G : Auth.Gateway W} {M : AlunoModel W} {E : Routes.EntityControllers W}
    (v : Routes.Version) (req : Request) (st : St W) :
  (∀ r, r ∈ Routes.router → Routes.protected r = true →
     ∃ ctl,
       Routes.stack r = [Routes.Auth_verifyToken; ctl]
       ∧ ctl ≠ Routes.Auth_verifyToken
       ∧ match Auth.authorize req (Auth.clock (world st)) with
         | Authorized _ =>
             Routes.invocations ctl
               (Routes.dispatch v (Routes.method r) (Routes.path r) req st).1 = 1%nat
         | Unauthorized _ =>
             Routes.dispatch v (Routes.method r) (Routes.path r) req st
             = ([Routes.Auth_verifyToken],
                (Ok (Some (mkResponse 401
                             (Some (JsonBody (mensagem_obj Auth.MENSAGEM_NAO_AUTORIZADO))))),
                 st))
             ∧ Routes.invocations ctl
                 (Routes.dispatch v (Routes.method r) (Routes.path r) req st).1 = 0%nat
         end)
  ∧ (headers req !! Auth.TOKEN_HEADER = None →
     Auth.authorize req (Auth.clock (world st)) = Unauthorized no_token)
  ∧ (∀ s lista st',
       Auth.authorize req (Auth.clock (world st)) = Authorized s →
       listarAlunos st = (Ok lista, st') →
       Routes.dispatch v Routes.GET (Routes.Config Routes.LISTAR_ALUNOS) req st
       = ([Routes.Auth_verifyToken; Routes.AlunoController_todos],
          (Ok (Some (mkResponse 200 (Some (JsonBody (JArr (Aluno_toJSON <$> lista)))))),
           st'))).
Proof.
  split; [|split].
  - intros r Hr Hp.
    destruct (protected_stack r Hr Hp) as (ctl & Hstack & Hc).
    exists ctl. split; [exact Hstack|]. split; [exact Hc|].
    rewrite (dispatch_route v req st r Hr), Hstack.
    pose proof (run_gate v ctl req st Hc) as Hrun.
    destruct (invocations_gate ctl Hc) as (H0 & H1).
    destruct (Auth.authorize req (Auth.clock (world st))) as [s|reason].
    + destruct Hrun as (out & -> & _). exact H1.
    + rewrite Hrun. split; [reflexivity|exact H0].
  - apply authorize_no_token.
  - intros s lista st' Hs Hl.
    pose proof (run_gate v Routes.AlunoController_todos req st) as Hrun.
    rewrite Hs in Hrun. destruct Hrun as (out & Hrun & Hout); [discriminate|].
    unfold Routes.dispatch. simpl filter. simpl concat. simpl fmap.
    change (Routes.run_stack v
              [Routes.Auth_verifyToken; Routes.AlunoController_todos] req res0 st
            = ([Routes.Auth_verifyToken; Routes.AlunoController_todos],
               (Ok (Some (mkResponse 200
                            (Some (JsonBody (JArr (Aluno_toJSON <$> lista)))))), st'))).
    rewrite Hrun. f_equal.
    revert Hout. simpl. unfold Routes.controller.
    destruct v; unfold AlunoController.todos, AlunoController2.todos;
      eff_unfold; rewrite Hl; simpl; intros ->; reflexivity.
Qed.

(** The two scenarios of [GET LISTAR_ALUNOS]: with a token that verifies,
    and without the token header. *)
Lemma protected_routes_gate_witness :
  Routes.dispatch (C := Scenario.codec) (G := Scenario.gateway)
    (M := Scenario.model) (E := Scenario.others)
    Routes.V1 Routes.GET (Routes.Config Routes.LISTAR_ALUNOS)
    Scenario.with_token (Scenario.up 1)
  = ([Routes.Auth_verifyToken; Routes.AlunoController_todos],
     (Ok (Some (mkResponse 200 (Some (JsonBody (JArr [JStr "Ana"]))))),
      Scenario.up 1))
  ∧ Routes.dispatch (C := Scenario.codec) (G := Scenario.gateway)
      (M := Scenario.model) (E := Scenario.others)
      Routes.V1 Routes.GET (Routes.Config Routes.LISTAR_ALUNOS)
      Scenario.anonymous (Scenario.up 1)
    = ([Routes.Auth_verifyToken],
       (Ok (Some (mkResponse 401 (Some (JsonBody (mensagem_obj "Não autorizado."))))),
        Scenario.up 1)).
Proof.
  split.
  - destruct (protected_routes_gate (C := Scenario.codec) (G := Scenario.gateway)
                (M := Scenario.model) (E := Scenario.others)
                Routes.V1 Scenario.with_token (Scenario.up 1)) as (_ & _ & Hlist).
    apply (Hlist "ana" ["Ana"] (Scenario.up 1)); reflexivity.
  - destruct (protected_routes_gate (C := Scenario.codec) (G := Scenario.gateway)
                (M := Scenario.model) (E := Scenario.others)
                Routes.V1 Scenario.anonymous (Scenario.up 1)) as (Hgate & Hnone & _).
    destruct (Hgate (Routes.mkRoute Routes.GET (Routes.Config Routes.LISTAR_ALUNOS)
                       [Routes.Auth_verifyToken; Routes.AlunoController_todos]))
      as (ctl & _ & _ & Hrun).
    + unfold Routes.router. rewrite !elem_of_cons. auto.
    + reflexivity.
    + rewrite (Hnone eq_refl) in Hrun. exact (proj1 Hrun).
Defined.

(** * Further properties of the code *)

(** ** The guard of [cadastrar] *)

(** What either version of [cadastrar] does with a request the guard
    stops. *)
Lemma cadastrar_rejection {W : Type} {M : AlunoModel W}
    (v : Routes.Version) (req : Request) (res : Response) (st : St W) :
  obrigatorios_informados req = false →
  operation v Create req res st
  = (Ok (json (mensagem_obj "Parâmetros obrigatórios não informados.") (status 406 res)),
     mkSt (world st) (console st ++ [LogStr "Parâmetros obrigatórios não informados"])).
Proof.
  intros Hg.
  destruct v; unfold operation, AlunoController.cadastrar,
    AlunoController2.cadastrar; eff_unfold;
    rewrite guard_obrigatorios, Hg; reflexivity.
Qed.

(** X1.  A request that lacks one of [nome], [sobrenome], [email] and
    [celular] (absent, [null], empty, [0] or [false]) is answered by
    [cadastrar], in either version, with 406 and the envelope of the
    missing parameters, whatever the model would do: the world is left
    untouched and one line is logged.  A result code 9 of the model is
    answered with that very response. *)
Theorem cadastrar_guard_rejects {W : Type} {M : AlunoModel W}
    (v : Routes.Version) (req : Request) (res : Response) (st : St W) :
  obrigatorios_informados req = false →
  operation v Create req res st
  = (Ok (json (mensagem_obj "Parâmetros obrigatórios não informados.") (status 406 res)),
     mkSt (world st) (console st ++ [LogStr "Parâmetros obrigatórios não informados"]))
  ∧ (∀ (req' : Request) (st1 st1' : St W),
       obrigatorios_informados req' = true →
       cadastrarAluno (novoAluno_de req') st1 = (Ok 9, st1') →
       (operation v Create req' res st1).1 = (operation v Create req res st).1).
Proof.
  intros Hg. pose proof (cadastrar_rejection v req res st Hg) as Hrej.
  split; [exact Hrej|].
  intros req' st1 st1' Hg' H9. rewrite Hrej.
  destruct v; simpl.
  - destruct (cadastrar_returns req' res st1 st1' 9 Hg' H9) as (r & Hr & ->).
    injection Hr as <-. reflexivity.
  - destruct (cadastrar2_returns req' res st1 st1' 9 Hg' H9) as (r & Hr & ->).
    injection Hr as <-. reflexivity.
Qed.

Lemma cadastrar_guard_rejects_witness :
  answered (operation (M := Scenario.model) Routes.V2 Create
              Scenario.anonymous res0 Scenario.down)
  = Some (mkResponse 406
            (Some (JsonBody (mensagem_obj "Parâmetros obrigatórios não informados."))))
  ∧ (operation (M := Scenario.model) Routes.V2 Create
       Scenario.novo_aluno res0 (Scenario.up 9)).1
    = (operation (M := Scenario.model) Routes.V2 Create
         Scenario.anonymous res0 Scenario.down).1.
Proof.
  destruct (cadastrar_guard_rejects (M := Scenario.model) Routes.V2
              Scenario.anonymous res0 Scenario.down) as (Hrej & Hnine).
  - reflexivity.
  - split.
    + unfold answered. rewrite Hrej. reflexivity.
    + apply (Hnine Scenario.novo_aluno (Scenario.up 9) (Scenario.up 9));
        reflexivity.
Defined.

(** ** Success is code 1 *)

(** X2.  In the first version of the controller, and in [cadastrar] and
    [remover] of the second, a response has a 2xx status exactly when the
    operation got as far as the model and the model returned 1: a missing
    field, any other result code and a thrown error are never answered as a
    success. *)
Theorem success_only_on_code_1 {W : Type} {M : AlunoModel W}
    (v : Routes.Version) (op : Operation) (req : Request) (res : Response)
    (st st' : St W) (resp : Response) :
  v = Routes.V1 ∨ op ≠ Update →
  operation v op req res st = (Ok resp, st') →
  (is_2xx (statusCode resp)
   ↔ reaches_model op req = true ∧ ∃ st1, domain_call op req st = (Ok 1, st1)).
Proof.
  intros Hv. unfold is_2xx.
  destruct (reaches_model op req) eqn:Hr.
  - destruct (domain_call op req st) as [[c|e] st1] eqn:Hd.
    + assert (Hcode : operation v op req res st = (Ok resp, st') →
                      (200 ≤ statusCode resp < 300 ↔ c = 1)).
      { destruct v, op.
        - destruct (cadastrar_returns req res st st1 c Hr Hd) as (r & Hlk & Hrun).
          destruct (mensagens_coalesce c) as (r' & Hlk' & H1 & H9 & Hf).
          simpl. rewrite Hrun. intros [= <- _]. rewrite Hlk in Hlk'.
          injection Hlk' as <-.
          destruct (decide (c = 1)) as [->|Hn1]; [rewrite H1 by reflexivity; simpl; lia|].
          destruct (decide (c = 9)) as [->|Hn9]; [rewrite H9 by reflexivity; simpl; lia|].
          rewrite Hf by assumption. simpl. lia.
        - run_operation Hr Hd. intros [= <- _]. simpl.
          destruct (Z.eqb_spec c 1); lia.
        - run_operation Hr Hd. switch_cases; intros [= <- _]; simpl; lia.
        - destruct (cadastrar2_returns req res st st1 c Hr Hd) as (r & Hlk & Hrun).
          destruct (mensagens_coalesce c) as (r' & Hlk' & H1 & H9 & Hf).
          simpl. rewrite Hrun. intros [= <- _]. rewrite Hlk in Hlk'.
          injection Hlk' as <-.
          destruct (decide (c = 1)) as [->|Hn1]; [rewrite H1 by reflexivity; simpl; lia|].
          destruct (decide (c = 9)) as [->|Hn9]; [rewrite H9 by reflexivity; simpl; lia|].
          rewrite Hf by assumption. simpl. lia.
        - destruct Hv as [Hv|Hv]; [discriminate Hv|congruence].
        - run_operation Hr Hd. switch_cases; intros [= <- _]; simpl; lia. }
      intros Hrun. rewrite (Hcode Hrun). split.
      * intros ->. split; [reflexivity|]. exists st1. reflexivity.
      * intros (_ & st2 & [= -> _]). reflexivity.
    + intros Hrun. split.
      * revert Hrun. destruct v, op;
          try (destruct Hv as [Hv|Hv]; [discriminate Hv|congruence]);
          run_operation Hr Hd; intros [= <- _]; simpl; lia.
      * intros (_ & st2 & [=]).
  - intros Hrun. split; [|intros (Hf & _); discriminate Hf].
    destruct op; try discriminate Hr.
    rewrite (cadastrar_rejection v req res st Hr) in Hrun. injection Hrun as <- _. simpl. lia.
Qed.

Lemma success_only_on_code_1_witness :
  is_2xx 201
  ↔ reaches_model Create Scenario.novo_aluno = true
    ∧ ∃ st1, domain_call (M := Scenario.model) Create Scenario.novo_aluno
               (Scenario.up 1) = (Ok 1, st1).
Proof.
  apply (success_only_on_code_1 (M := Scenario.model) Routes.V1 Create
           Scenario.novo_aluno res0 (Scenario.up 1) (Scenario.up 1)
           (mkResponse 201 (Some (JsonBody (mensagem_obj "Aluno cadastrado com sucesso!"))))).
  - left. reflexivity.
  - reflexivity.
Defined.

(** ** The two versions, operation by operation *)

(** X3.  Whenever the call to the model returns, the two versions of
    [todos] give the same result and state, and so do the two versions of
    [remover].  When [Aluno.removerAluno] throws, both versions of
    [remover] answer 500, with different plain-text bodies. *)
Theorem todos_remover_versions_agree {W : Type} {M : AlunoModel W}
    (req : Request) (res : Response) (st : St W) :
  ((∃ lista st', listarAlunos st = (Ok lista, st')) →
   AlunoController.todos req res st = AlunoController2.todos req res st)
  ∧ ((∃ c st', removerAluno (parseInt (prop (query req) "idAluno")) st = (Ok c, st')) →
     AlunoController.remover req res st = AlunoController2.remover req res st)
  ∧ (∀ e st', removerAluno (parseInt (prop (query req) "idAluno")) st = (Thrown e, st') →
       statusCode <$> answered (AlunoController.remover req res st) = Some 500
       ∧ statusCode <$> answered (AlunoController2.remover req res st) = Some 500
       ∧ sent <$> answered (AlunoController.remover req res st)
         ≠ sent <$> answered (AlunoController2.remover req res st)).
Proof.
  split; [|split].
  - intros (lista & st' & Hl).
    unfold AlunoController.todos, AlunoController2.todos. eff_unfold.
    rewrite Hl. reflexivity.
  - intros (c & st' & Hc).
    unfold AlunoController.remover, AlunoController2.remover. eff_unfold.
    rewrite Hc. switch_cases; reflexivity.
  - intros e st' He.
    unfold AlunoController.remover, AlunoController2.remover. eff_unfold.
    rewrite He. simpl. repeat split. discriminate.
Qed.

Lemma todos_remover_versions_agree_witness :
  AlunoController.remover (M := Scenario.model) Scenario.anonymous res0 (Scenario.up 9)
  = AlunoController2.remover (M := Scenario.model) Scenario.anonymous res0 (Scenario.up 9).
Proof.
  destruct (todos_remover_versions_agree (M := Scenario.model)
              Scenario.anonymous res0 (Scenario.up 9)) as (_ & H & _).
  apply H. exists 9, (Scenario.up 9). reflexivity.
Defined.

(** Exhibits the two responses and compares them field by field. *)
Ltac compare_responses :=
  do 2 eexists; split; [reflexivity|]; split; [reflexivity|];
  repeat split; simpl; intros; try reflexivity; try lia; try discriminate;
  try congruence.

(** X4.  When [Aluno.atualizarAluno] returns a result code, both versions
    of [atualizar] answer with an envelope and agree on success against
    failure (2xx exactly for code 1), but never give the same response:
    the statuses differ for the codes 1 (200 against 201) and 9 (400
    against 406), and the messages differ for every code but 1. *)
Theorem atualizar_versions_compared {W : Type} {M : AlunoModel W}
    (req : Request) (res : Response) (st st' : St W) (c : Z) :
  atualizarAluno (aluno_atualizado_de req) st = (Ok c, st') →
  ∃ r1 r2,
    AlunoController.atualizar req res st = (Ok r1, st')
    ∧ AlunoController2.atualizar req res st = (Ok r2, st')
    ∧ is_envelope (sent r1) = true ∧ is_envelope (sent r2) = true
    ∧ (is_2xx (statusCode r1) ↔ c = 1)
    ∧ (is_2xx (statusCode r2) ↔ c = 1)
    ∧ (statusCode r1 = statusCode r2 ↔ c ≠ 1 ∧ c ≠ 9)
    ∧ (sent r1 = sent r2 ↔ c = 1).
Proof.
  intros Hc.
  change (atualizarAluno (aluno_atualizado_de req)) with (domain_call Update req) in Hc.
  assert (Hr : reaches_model Update req = true) by reflexivity.
  change AlunoController.atualizar with (operation Routes.V1 Update).
  change AlunoController2.atualizar with (operation Routes.V2 Update).
  run_operation Hr Hc. unfold is_2xx.
  destruct (decide (c = 1)) as [->|Hn1]; [compare_responses|].
  destruct (Z.eqb_spec c 1) as [?|_]; [contradiction|].
  destruct (decide (c = 9)) as [->|Hn9]; [compare_responses|].
  switch_cases; try congruence; compare_responses.
Qed.

Lemma atualizar_versions_compared_witness :
  ∃ r1 r2,
    AlunoController.atualizar (M := Scenario.model) Scenario.novo_aluno res0
      (Scenario.up 9) = (Ok r1, Scenario.up 9)
    ∧ AlunoController2.atualizar (M := Scenario.model) Scenario.novo_aluno res0
        (Scenario.up 9) = (Ok r2, Scenario.up 9)
    ∧ statusCode r1 ≠ statusCode r2.
Proof.
  destruct (atualizar_versions_compared (M := Scenario.model)
              Scenario.novo_aluno res0 (Scenario.up 9) (Scenario.up 9) 9)
    as (r1 & r2 & H1 & H2 & _ & _ & _ & _ & Hst & _).
  - reflexivity.
  - exists r1, r2. split; [exact H1|]. split; [exact H2|].
    intros Heq. apply Hst in Heq. lia.
Defined.

(** ** What the controllers leave behind *)

(** X5.  No operation of either version touches the world except through
    its call to the model: a request the guard stops leaves the world as it
    was; otherwise the world is the one the model's call left.  The console
    only grows: what the model logged stays, nothing is added when the
    model returns, and a thrown error always adds an entry. *)
Theorem operations_frame {W : Type} {M : AlunoModel W}
    (v : Routes.Version) (op : Operation) (req : Request) (res : Response)
    (st : St W) :
  (reaches_model op req = false →
   world (operation v op req res st).2 = world st)
  ∧ (reaches_model op req = true →
     world (operation v op req res st).2 = world (domain_call op req st).2
     ∧ console (domain_call op req st).2 `prefix_of` console (operation v op req res st).2
     ∧ (∀ c st1, domain_call op req st = (Ok c, st1) →
          (operation v op req res st).2 = st1)
     ∧ (∀ e st1, domain_call op req st = (Thrown e, st1) →
          (length (console st1) < length (console (operation v op req res st).2))%nat)).
Proof.
  split.
  - intros Hr. destruct op; try discriminate Hr.
    rewrite (cadastrar_rejection v req res st Hr). reflexivity.
  - intros Hr.
    destruct (domain_call op req st) as [[c|e] st1] eqn:Hd.
    + assert (Hst : (operation v op req res st).2 = st1).
      { destruct v, op.
        - destruct (cadastrar_returns req res st st1 c Hr Hd) as (r & _ & Hrun).
          simpl. rewrite Hrun. reflexivity.
        - run_operation Hr Hd. reflexivity.
        - run_operation Hr Hd. switch_cases; reflexivity.
        - destruct (cadastrar2_returns req res st st1 c Hr Hd) as (r & _ & Hrun).
          simpl. rewrite Hrun. reflexivity.
        - run_operation Hr Hd. switch_cases; reflexivity.
        - run_operation Hr Hd. switch_cases; reflexivity. }
      rewrite Hst. simpl. repeat split.
      * reflexivity.
      * intros c' st2 [= _ <-]. reflexivity.
      * intros e st2 [=].
    + assert (Hst : world (operation v op req res st).2 = world st1
                    ∧ ∃ added : list ConsoleEntry, added ≠ []
                        ∧ console (operation v op req res st).2
                          = (console st1 ++ added)%list).
      { destruct v, op; run_operation Hr Hd;
          (split; [reflexivity|eexists; split; [|simpl; try rewrite <- app_assoc; reflexivity]; discriminate]). }
      destruct Hst as (Hw & added & Hne & Hco). simpl. repeat split.
      * exact Hw.
      * rewrite Hco. apply prefix_app_r. reflexivity.
      * intros c st2 [=].
      * intros e' st2 [= _ <-]. rewrite Hco, length_app.
        destruct added; [contradiction|]. simpl. lia.
Qed.

Lemma operations_frame_witness :
  world (operation (M := Scenario.model) Routes.V2 Remove Scenario.anonymous
           res0 Scenario.down).2
  = world Scenario.down
  ∧ (length (console Scenario.down)
     < length (console (operation (M := Scenario.model) Routes.V2 Remove
                          Scenario.anonymous res0 Scenario.down).2))%nat.
Proof.
  destruct (operations_frame (M := Scenario.model) Routes.V2 Remove
              Scenario.anonymous res0 Scenario.down) as (_ & H).
  destruct (H eq_refl) as (Hw & _ & _ & Hlog).
  split.
  - exact Hw.
  - apply (Hlog Scenario.unavailable Scenario.down). reflexivity.
Defined.

(** ** Usuario *)

(** X6.  When the query returns, [listarUsuarios] returns one [Usuario] per
    row, in the order of the rows, each with the row's [id_usuario],
    [uuid], [nome], [username] and [email] and with an empty [senha]; no
    row is dropped, merged or reordered, and an empty table gives the empty
    list, not [null]. *)
Theorem listarUsuarios_rows {W : Type} {D : DataBaseModel W}
    (st st' : St W) (respostaBD : QueryResult) :
  pool_query "SELECT * FROM usuario" st = (Ok respostaBD, st') →
  Usuario.listarUsuarios st
  = (Ok (Some ((λ row, Usuario.mk (Row.id_usuario row) (Row.uuid row) (Row.nome row)
                                  (Row.username row) (Row.email row) "")
               <$> rows respostaBD)),
     st')
  ∧ (rows respostaBD = [] → Usuario.listarUsuarios st = (Ok (Some []), st')).
Proof.
  intros Hq.
  assert (Hfold : ∀ (rs : list Row.t) (acc : list Usuario.t),
            fold_left Usuario.push_row rs acc
            = (acc ++ ((λ row, Usuario.mk (Row.id_usuario row) (Row.uuid row)
                                 (Row.nome row) (Row.username row) (Row.email row) "")
                       <$> rs))%list).
  { induction rs as [|r rs IH]; intros acc; simpl.
    - rewrite app_nil_r. reflexivity.
    - rewrite IH. unfold Usuario.push_row. rewrite <- app_assoc. reflexivity. }
  unfold Usuario.listarUsuarios. eff_unfold. rewrite Hq, Hfold. simpl.
  split; [reflexivity|]. intros ->. reflexivity.
Qed.

Lemma listarUsuarios_rows_witness :
  Usuario.listarUsuarios (D := Scenario.database) (Scenario.up 1)
  = (Ok (Some [Usuario.mk 1 "7c9e6679" "Ana" "ana" "ana@escola.br" ""]),
     Scenario.up 1).
Proof.
  apply (listarUsuarios_rows (D := Scenario.database) (Scenario.up 1)
           (Scenario.up 1) (mkQueryResult [Scenario.row_ana "correct"])).
  reflexivity.
Defined.

(** X7.  [listarUsuarios] never throws.  It returns [null] exactly when
    the query threw, and then it has logged the error's text in one line
    after whatever the query logged, leaving the world as the query left
    it. *)
Theorem listarUsuarios_failure {W : Type} {D : DataBaseModel W} (st : St W) :
  (∃ r st', Usuario.listarUsuarios st = (Ok r, st')
            ∧ (r = None ↔ ∃ e st1, pool_query "SELECT * FROM usuario" st = (Thrown e, st1)))
  ∧ (∀ e st1,
       pool_query "SELECT * FROM usuario" st = (Thrown e, st1) →
       Usuario.listarUsuarios st
       = (Ok None,
          mkSt (world st1)
               (console st1 ++ [LogStr ("Erro ao recuperar usuários. " ++ Error_toString e)]))).
Proof.
  unfold Usuario.listarUsuarios. eff_unfold.
  destruct (pool_query "SELECT * FROM usuario" st) as [[respostaBD|e] st1]; split.
  - do 2 eexists. split; [reflexivity|]. split; [discriminate|].
    intros (e & st2 & [=]).
  - intros e st2 [=].
  - do 2 eexists. split; [reflexivity|]. split; [|reflexivity].
    intros _. exists e, st1. reflexivity.
  - intros e' st2 [= <- <-]. reflexivity.
Qed.

Lemma listarUsuarios_failure_witness :
  Usuario.listarUsuarios (D := Scenario.database) Scenario.down
  = (Ok None,
     mkSt (world Scenario.down)
          [LogStr "Erro ao recuperar usuários. Error: connect ECONNREFUSED"]).
Proof.
  destruct (listarUsuarios_failure (D := Scenario.database) Scenario.down)
    as (_ & H).
  apply (H Scenario.unavailable Scenario.down). reflexivity.
Defined.

(** X8.  The password of a [Usuario] object changes only through
    [setSenha]: after any sequence of setter calls without [setSenha] the
    object has the [senha] it had, so an object fresh from the constructor
    still has the empty one; and after a sequence with [setSenha] it has
    the value of the last such call. *)
Theorem senha_only_by_setSenha (u : Usuario.t) (calls later : list UsuarioSetter)
    (_nome _username _email v : string) :
  forallb (λ s, negb (is_SetSenha s)) later = true →
  Usuario.getSenha (call_setters u later) = Usuario.getSenha u
  ∧ Usuario.getSenha (call_setters (Usuario.new _nome _username _email) later) = ""
  ∧ Usuario.getSenha (call_setters u (calls ++ SetSenha v :: later)) = v.
Proof.
  intros Hlater.
  assert (Hkeep : ∀ u0, Usuario.getSenha (call_setters u0 later) = Usuario.getSenha u0).
  { unfold call_setters. induction later as [|s later IH]; intros u0; simpl.
    - reflexivity.
    - simpl in Hlater. apply andb_prop in Hlater as (Hs & Hlater).
      rewrite (IH Hlater). destruct s; try discriminate Hs; reflexivity. }
  split; [apply Hkeep|]. split; [rewrite Hkeep; reflexivity|].
  unfold call_setters. rewrite fold_left_app. simpl.
  apply (Hkeep (Usuario.setSenha v (fold_left call_setter calls u))).
Qed.

Lemma senha_only_by_setSenha_witness :
  Usuario.getSenha
    (call_setters (Usuario.new "Ana" "ana" "ana@escola.br")
       [SetIdUsuario 7; SetEmail "ana@biblioteca.br"]) = ""
  ∧ Usuario.getSenha
      (call_setters (Usuario.new "Ana" "ana" "ana@escola.br")
         ([SetSenha "a"; SetNome "Ana Lima"] ++ SetSenha "b"
            :: [SetIdUsuario 7; SetEmail "ana@biblioteca.br"])) = "b".
Proof.
  destruct (senha_only_by_setSenha (Usuario.new "Ana" "ana" "ana@escola.br")
              [SetSenha "a"; SetNome "Ana Lima"]
              [SetIdUsuario 7; SetEmail "ana@biblioteca.br"]
              "Ana" "ana" "ana@escola.br" "b") as (_ & Hnew & Hlast).
  - reflexivity.
  - split; [exact Hnew|exact Hlast].
Defined.

(** ** The guard of [cadastrar], field by field *)




(** ** The router, outside the protected routes *)



(** X11.  The default route and the login are outside the gate: on them
    [Auth.verifyToken] is never invoked, whatever the request carries, and
    the default route answers every request with 200 and its fixed
    message, leaving the state as it was. *)
Theorem public_routes_skip_gate {W : Type} {C : TokenCodec.Codec}
    {G : Auth.Gateway W} {M : AlunoModel W} {E : Routes.EntityControllers W}
    (v : Routes.Version) (req : Request) (st : St W) :
  (∀ r, r ∈ Routes.router → Routes.protected r = false →
        Routes.invocations Routes.Auth_verifyToken
          (Routes.dispatch v (Routes.method r) (Routes.path r) req st).1 = 0%nat
        ∧ length (Routes.dispatch v (Routes.method r) (Routes.path r) req st).1 = 1%nat)
  ∧ Routes.dispatch v Routes.GET (Routes.Literal "/") req st
    = ([Routes.Root],
       (Ok (Some (mkResponse 200 (Some (JsonBody (mensagem_obj "Rota padrão"))))), st)).
Proof.
  split; [|reflexivity].
  intros r Hr Hp. rewrite (dispatch_route v req st r Hr).
  unfold Routes.router in Hr.
  repeat (apply elem_of_cons in Hr as [-> | Hr]);
    try (by apply elem_of_nil in Hr); try discriminate Hp.
  - split; reflexivity.
  - unfold Routes.stack, Routes.run_stack, Routes.handler, Routes.controller.
    eff_unfold.
    destruct (Auth.validacaoUsuario req res0 st) as [[r|e] st1]; split; reflexivity.
Qed.

Lemma public_routes_skip_gate_witness :
  Routes.invocations Routes.Auth_verifyToken
    (Routes.dispatch (C := Scenario.codec) (G := Scenario.gateway)
       (M := Scenario.model) (E := Scenario.others)
       Routes.V1 Routes.POST (Routes.Config Routes.LOGIN)
       (Scenario.login_de "ana" "correct") (Scenario.up 1)).1 = 0%nat.
Proof.
  destruct (public_routes_skip_gate (C := Scenario.codec) (G := Scenario.gateway)
              (M := Scenario.model) (E := Scenario.others)
              Routes.V1 (Scenario.login_de "ana" "correct") (Scenario.up 1))
    as (Hpublic & _).
  apply (Hpublic (Routes.mkRoute Routes.POST (Routes.Config Routes.LOGIN)
                    [Routes.Auth_validacaoUsuario])).
  - unfold Routes.router. rewrite !elem_of_cons. auto.
  - reflexivity.
Defined.

(** ** What a response can tell *)

(** X12.  The response of an operation that reaches the model is decided
    by the outcome of the model's call alone: two runs in which the model
    returns the same result code, or throws in both, are answered alike,
    whatever the two requests carried, the states were and the errors were.
    So a response neither echoes the request nor exposes the error that was
    thrown.  Likewise [todos]: the same list, or a throw in both runs,
    gives the same response. *)
Theorem response_decided_by_outcome {W : Type} {M : AlunoModel W}
    (v : Routes.Version) (op : Operation) (req1 req2 : Request) (res : Response)
    (st1 st2 : St W) :
  (reaches_model op req1 = true → reaches_model op req2 = true →
   match domain_call op req1 st1, domain_call op req2 st2 with
   | (Ok c1, _), (Ok c2, _) => c1 = c2
   | (Thrown _, _), (Thrown _, _) => True
   | _, _ => False
   end →
   (operation v op req1 res st1).1 = (operation v op req2 res st2).1)
  ∧ (match listarAlunos st1, listarAlunos st2 with
     | (Ok l1, _), (Ok l2, _) => l1 = l2
     | (Thrown _, _), (Thrown _, _) => True
     | _, _ => False
     end →
     (todos v req1 res st1).1 = (todos v req2 res st2).1).
Proof.
  split.
  - intros Hr1 Hr2.
    destruct (domain_call op req1 st1) as [[c1|e1] s1] eqn:Hd1;
      destruct (domain_call op req2 st2) as [[c2|e2] s2] eqn:Hd2;
      try contradiction.
    + intros <-. destruct v, op.
      * destruct (cadastrar_returns req1 res st1 s1 c1 Hr1 Hd1) as (r1 & Hl1 & Hrun1).
        destruct (cadastrar_returns req2 res st2 s2 c1 Hr2 Hd2) as (r2 & Hl2 & Hrun2).
        simpl. rewrite Hrun1, Hrun2. simpl. congruence.
      * run_operation Hr1 Hd1. run_operation Hr2 Hd2. reflexivity.
      * run_operation Hr1 Hd1. run_operation Hr2 Hd2. switch_cases; reflexivity.
      * destruct (cadastrar2_returns req1 res st1 s1 c1 Hr1 Hd1) as (r1 & Hl1 & Hrun1).
        destruct (cadastrar2_returns req2 res st2 s2 c1 Hr2 Hd2) as (r2 & Hl2 & Hrun2).
        simpl. rewrite Hrun1, Hrun2. simpl. congruence.
      * run_operation Hr1 Hd1. run_operation Hr2 Hd2. switch_cases; reflexivity.
      * run_operation Hr1 Hd1. run_operation Hr2 Hd2. switch_cases; reflexivity.
    + intros _. destruct v, op;
        run_operation Hr1 Hd1; run_operation Hr2 Hd2; reflexivity.
  - destruct v; unfold todos, AlunoController.todos, AlunoController2.todos;
      eff_unfold;
      destruct (listarAlunos st1) as [[l1|e1] s1];
      destruct (listarAlunos st2) as [[l2|e2] s2];
      try contradiction; try (intros <-); reflexivity.
Qed.

Lemma response_decided_by_outcome_witness :
  (operation (M := Scenario.model) Routes.V1 Update Scenario.novo_aluno res0
     (Scenario.up 9)).1
  = (operation (M := Scenario.model) Routes.V1 Update Scenario.anonymous res0
       (mkSt (world (Scenario.up 9)) [LogStr "antes"])).1.
Proof.
  destruct (response_decided_by_outcome (M := Scenario.model) Routes.V1 Update
              Scenario.novo_aluno Scenario.anonymous res0
              (Scenario.up 9) (mkSt (world (Scenario.up 9)) [LogStr "antes"]))
    as (H & _).
  apply H; reflexivity.
Defined.

(** ** Caught errors are logged *)

(** Finds the entry of a caught error among the lines added. *)
Ltac line_with prefix :=
  exists prefix; rewrite !elem_of_cons; left; reflexivity.

Ltac error_entry :=
  first
    [ solve [left; simpl; rewrite !elem_of_cons; auto]
    | right; left;
      first [ line_with "Erro ao acessar método herdado: "
            | line_with "Erro ao cadastrar o aluno: "
            | line_with "Erro ao remover aluno: " ]
    | right; right;
      first [ line_with "Erro ao atualizar aluno: "
            | line_with "Erro no modelo: " ] ].

(** X13.  An error thrown by the model's call is never dropped silently:
    every operation, [todos] included, in either version, adds to the
    console the error object itself or a line that ends with the error's
    text, after everything the model had logged. *)
Theorem caught_errors_are_logged {W : Type} {M : AlunoModel W}
    (v : Routes.Version) (req : Request) (res : Response) (st st1 : St W)
    (e : Error) :
  let recorded (before after : list ConsoleEntry) :=
    ∃ added : list ConsoleEntry,
      after = (before ++ added)%list
      ∧ (LogObj e ∈ added
         ∨ (∃ prefix, LogStr (prefix ++ Error_toString e) ∈ added)
         ∨ (∃ prefix, ErrStr (prefix ++ Error_toString e) ∈ added)) in
  (∀ op, reaches_model op req = true →
         domain_call op req st = (Thrown e, st1) →
         recorded (console st1) (console (operation v op req res st).2))
  ∧ (listarAlunos st = (Thrown e, st1) →
     recorded (console st1) (console (todos v req res st).2)).
Proof.
  intros recorded. subst recorded. split.
  - intros op Hr Hd.
    destruct v, op; run_operation Hr Hd;
      (eexists; split; [try rewrite <- app_assoc; reflexivity|error_entry]).
  - intros Hl.
    destruct v; unfold todos, AlunoController.todos, AlunoController2.todos;
      eff_unfold; rewrite Hl; simpl;
      (eexists; split; [reflexivity|error_entry]).
Qed.

Lemma caught_errors_are_logged_witness :
  ∃ added : list ConsoleEntry,
    console (operation (M := Scenario.model) Routes.V2 Remove Scenario.anonymous
               res0 Scenario.down).2
    = (console Scenario.down ++ added)%list
    ∧ (LogObj Scenario.unavailable ∈ added
       ∨ (∃ prefix, LogStr (prefix ++ Error_toString Scenario.unavailable) ∈ added)
       ∨ (∃ prefix, ErrStr (prefix ++ Error_toString Scenario.unavailable) ∈ added)).
Proof.
  destruct (caught_errors_are_logged (M := Scenario.model) Routes.V2
              Scenario.anonymous res0 Scenario.down Scenario.down
              Scenario.unavailable) as (H & _).
  apply (H Remove); reflexivity.
Defined.

(** ** No registration shadows another *)

(** X14.  The router registers no method and path twice, so every
    registered route is reached: a request for the method and path of a
    registration runs the stack of that registration and nothing else. *)
Theorem no_route_shadowed {W : Type} {C : TokenCodec.Codec}
    {G : Auth.Gateway W} {M : AlunoModel W} {E : Routes.EntityControllers W}
    (v : Routes.Version) (req : Request) (st : St W) :
  NoDup ((λ r, (Routes.method r, Routes.path r)) <$> Routes.router)
  ∧ (∀ r, r ∈ Routes.router →
          Routes.dispatch v (Routes.method r) (Routes.path r) req st
          = Routes.run_stack v (Routes.stack r) req res0 st).
Proof.
  split.
  - unfold Routes.router. simpl.
    repeat (apply NoDup_cons_2;
            [rewrite ?elem_of_cons, elem_of_nil; intuition discriminate|]).
    apply NoDup_nil_2.
  - intros r Hr. unfold Routes.router in Hr.
    repeat (apply elem_of_cons in Hr as [-> | Hr]);
      try (by apply elem_of_nil in Hr); reflexivity.
Qed.

Lemma no_route_shadowed_witness :
  Routes.dispatch (C := Scenario.codec) (G := Scenario.gateway)
    (M := Scenario.model) (E := Scenario.others)
    Routes.V2 Routes.PUT (Routes.Config Routes.ATUALIZAR_ALUNO)
    Scenario.with_token (Scenario.up 1)
  = Routes.run_stack (C := Scenario.codec) (G := Scenario.gateway)
      (M := Scenario.model) (E := Scenario.others)
      Routes.V2 [Routes.Auth_verifyToken; Routes.AlunoController_atualizar]
      Scenario.with_token res0 (Scenario.up 1).
Proof.
  destruct (no_route_shadowed (C := Scenario.codec) (G := Scenario.gateway)
              (M := Scenario.model) (E := Scenario.others)
              Routes.V2 Scenario.with_token (Scenario.up 1)) as (_ & H).
  apply (H (Routes.mkRoute Routes.PUT (Routes.Config Routes.ATUALIZAR_ALUNO)
              [Routes.Auth_verifyToken; Routes.AlunoController_atualizar])).
  unfold Routes.router. rewrite !elem_of_cons. auto 10.
Defined.
